(** * Gesture handling of the FTS521 touch controller (ftsGesture.c)

    A shallow embedding of
    [drivers/input/touchscreen/fts521/fts_lib/ftsGesture.c]: the armed
    gesture bitmask, its refresh flag, the entry into gesture mode and the
    decoding of the coordinates a gesture event points to.

    - C integers are [Z]. A value stored in a [u8] or [u16] object is
      truncated with [to_u8] / [to_u16]; the [int] expressions of the file
      only combine bytes and small constants and are kept as they are.
    - The globals of the file are the fields of [world]; the functions are
      computations in a state monad [M] over it.
    - An array access outside the array has no defined result in C: it makes
      the computation yield [None].
    - The collaborators (interrupt gating, feature set, scan mode, bus read)
      are answered by a [device], a function of the calls made so far; each
      call is recorded, with its result, in the [trace] of the world.
    - [mutex_lock], [mutex_unlock] and [logError] do not change the data and
      are left out: one thread is modelled. *)

From Stdlib Require Import ZArith Lia Bool List.
From stdpp Require Import base list.
Import ListNotations.

Local Open Scope Z_scope.

(** ** Constants of the headers *)

(** The macros come from [ftsSoftware.h], [ftsError.h], [ftsGesture.h] and
    [ftsCore.h]; the development is parametric in their values. *)
Record Constants := {
  GESTURE_MASK_SIZE : Z;
  GESTURE_MAX_COORDS_PAIRS_REPORT : Z;
  FEAT_ENABLE : Z;
  FEAT_DISABLE : Z;
  FEAT_SEL_GESTURE : Z;
  SCAN_MODE_LOW_POWER : Z;
  EVT_ID_USER_REPORT : Z;
  EVT_TYPE_USER_GESTURE : Z;
  FTS_CMD_FRAMEBUFFER_R : Z;
  BITS_16 : Z;
  DUMMY_FRAMEBUFFER : Z;
  OK : Z;
  ERROR_OP_NOT_ALLOW : Z;
  ERROR_DISABLE_INTER : Z;
  ERROR_ENABLE_INTER : Z
}.

(** ** Machine integers *)

Definition to_u8 (v : Z) : Z := v mod 2 ^ 8.
Definition to_u16 (v : Z) : Z := v mod 2 ^ 16.

Definition is_u8 (v : Z) : Prop := 0 <= v < 2 ^ 8.

(** ** Arrays and pointers *)

(** [a[i]] for an array (or the object a pointer points into). *)
Definition index (a : list Z) (i : Z) : option Z :=
  if i <? 0 then None else a !! Z.to_nat i.

(** [a[i] = v]. *)
Definition store (a : list Z) (i v : Z) : option (list Z) :=
  if (0 <=? i) && (i <? Z.of_nat (length a))
  then Some (<[Z.to_nat i := v]> a) else None.

(** A [u8 *] argument: [None] is [NULL], [Some bs] points to the bytes [bs]. *)
Definition u8_ptr := option (list Z).

(** ** Collaborators *)

Inductive call :=
| Call_disableInterrupt
| Call_enableInterrupt
| Call_setFeatures (feat : Z) (payload : list Z) (size : Z)
| Call_setScanMode (mode settings : Z)
| Call_writeReadU8UX (cmd addrSize address len dummy : Z).

(** The hardware side: the result code of a call, and for a bus read the
    bytes it stores in the caller's buffer, given the calls made before
    (newest first). *)
Record device := {
  dev_result : list (call * Z) -> call -> Z;
  dev_bytes : list (call * Z) -> call -> list Z
}.

(** ** Globals *)

Record world := {
  gesture_mask : list Z;
  gesture_coordinates_x : list Z;
  gesture_coordinates_y : list Z;
  gesture_coords_reported : Z;
  refreshGestureMask : Z;
  trace : list (call * Z)
}.

Definition set_gesture_mask (m : list Z) (w : world) : world :=
  {| gesture_mask := m;
     gesture_coordinates_x := gesture_coordinates_x w;
     gesture_coordinates_y := gesture_coordinates_y w;
     gesture_coords_reported := gesture_coords_reported w;
     refreshGestureMask := refreshGestureMask w;
     trace := trace w |}.

Definition set_gesture_coordinates_x (xs : list Z) (w : world) : world :=
  {| gesture_mask := gesture_mask w;
     gesture_coordinates_x := xs;
     gesture_coordinates_y := gesture_coordinates_y w;
     gesture_coords_reported := gesture_coords_reported w;
     refreshGestureMask := refreshGestureMask w;
     trace := trace w |}.

Definition set_gesture_coordinates_y (ys : list Z) (w : world) : world :=
  {| gesture_mask := gesture_mask w;
     gesture_coordinates_x := gesture_coordinates_x w;
     gesture_coordinates_y := ys;
     gesture_coords_reported := gesture_coords_reported w;
     refreshGestureMask := refreshGestureMask w;
     trace := trace w |}.

Definition set_gesture_coords_reported (n : Z) (w : world) : world :=
  {| gesture_mask := gesture_mask w;
     gesture_coordinates_x := gesture_coordinates_x w;
     gesture_coordinates_y := gesture_coordinates_y w;
     gesture_coords_reported := n;
     refreshGestureMask := refreshGestureMask w;
     trace := trace w |}.

Definition set_refreshGestureMask (f : Z) (w : world) : world :=
  {| gesture_mask := gesture_mask w;
     gesture_coordinates_x := gesture_coordinates_x w;
     gesture_coordinates_y := gesture_coordinates_y w;
     gesture_coords_reported := gesture_coords_reported w;
     refreshGestureMask := f;
     trace := trace w |}.

Definition set_trace (t : list (call * Z)) (w : world) : world :=
  {| gesture_mask := gesture_mask w;
     gesture_coordinates_x := gesture_coordinates_x w;
     gesture_coordinates_y := gesture_coordinates_y w;
     gesture_coords_reported := gesture_coords_reported w;
     refreshGestureMask := refreshGestureMask w;
     trace := t |}.

(** ** The monad *)

Definition M (A : Type) : Type := world -> option (A * world).

Definition ret {A} (a : A) : M A := fun w => Some (a, w).

Definition bind {A B} (m : M A) (k : A -> M B) : M B :=
  fun w => match m w with
           | Some (a, w') => k a w'
           | None => None
           end.

Definition undefined {A} : M A := fun _ => None.

Definition lift {A} (o : option A) : M A :=
  fun w => match o with Some a => Some (a, w) | None => None end.

Definition reads {A} (f : world -> A) : M A := fun w => Some (f w, w).

Definition modify (f : world -> world) : M unit := fun w => Some (tt, f w).

Notation "'do' x <- m ; k" := (bind m (fun x => k))
  (at level 10, x name, m at level 100, k at level 200,
   format "'[v' 'do'  x  <-  m ; '/' k ']'").
Notation "'do' ' p <- m ; k" := (bind m (fun x => match x with p => k end))
  (at level 10, p pattern, m at level 100, k at level 200,
   format "'[v' 'do'  ' p  <-  m ; '/' k ']'").
Notation "m ;; k" := (bind m (fun _ => k))
  (at level 100, k at level 200, right associativity).

(** [for (i = from; i < from + n; i++) body(i)]. *)
Fixpoint for_loop (from : Z) (n : nat) (body : Z -> M unit) : M unit :=
  match n with
  | O => ret tt
  | S n' => body from ;; for_loop (from + 1) n' body
  end.

(** [for (i = 0; i < bound; i++) body(i)]: no round when [bound <= 0]. *)
Definition for_lt (bound : Z) (body : Z -> M unit) : M unit :=
  for_loop 0 (Z.to_nat bound) body.

(** Accesses to the global arrays. *)
Definition load_gesture_mask (i : Z) : M Z :=
  do m <- reads gesture_mask; lift (index m i).

Definition store_gesture_mask (i v : Z) : M unit :=
  do m <- reads gesture_mask;
  do m' <- lift (store m i (to_u8 v));
  modify (set_gesture_mask m').

Definition store_gesture_coordinates_x (i v : Z) : M unit :=
  do xs <- reads gesture_coordinates_x;
  do xs' <- lift (store xs i (to_u16 v));
  modify (set_gesture_coordinates_x xs').

Definition store_gesture_coordinates_y (i v : Z) : M unit :=
  do ys <- reads gesture_coordinates_y;
  do ys' <- lift (store ys i (to_u16 v));
  modify (set_gesture_coordinates_y ys').

(** [p[i]] for a pointer argument: undefined through [NULL]. *)
Definition deref (p : u8_ptr) (i : Z) : M Z :=
  match p with
  | Some bs => lift (index bs i)
  | None => undefined
  end.

(** ** The functions of ftsGesture.c *)

Section Driver.

Context (K : Constants) (dev : device).

(** A collaborator returning a result code. *)
Definition invoke (c : call) : M Z :=
  fun w =>
    let r := dev_result dev (trace w) c in
    Some (r, set_trace ((c, r) :: trace w) w).

Definition fts_disableInterrupt : M Z := invoke Call_disableInterrupt.

Definition fts_enableInterrupt : M Z := invoke Call_enableInterrupt.

(** [setFeatures(feat, payload, size)]: [payload] is the object the pointer
    argument points to at the time of the call. *)
Definition setFeatures (feat : Z) (payload : list Z) (size : Z) : M Z :=
  invoke (Call_setFeatures feat payload size).

Definition setScanMode (mode settings : Z) : M Z :=
  invoke (Call_setScanMode mode settings).

(** [fts_writeReadU8UX(cmd, addrSize, address, outBuf, len, dummy)] with
    [outBuf] a local array of [capacity] bytes: the result code and the
    content of the array after the call. The array keeps its declared size
    whatever the device sends; bytes the device did not provide read as 0. *)
Definition fts_writeReadU8UX (cmd addrSize address capacity len dummy : Z)
  : M (Z * list Z) :=
  fun w =>
    let c := Call_writeReadU8UX cmd addrSize address len dummy in
    let r := dev_result dev (trace w) c in
    let outBuf := resize (Z.to_nat capacity) 0 (dev_bytes dev (trace w) c) in
    Some ((r, outBuf), set_trace ((c, r) :: trace w) w).

(** [gesture_mask[i] = gesture_mask[i] | mask[i]] *)
Definition enable_byte (mask : u8_ptr) (i : Z) : M unit :=
  do g <- load_gesture_mask i;
  do d <- deref mask i;
  store_gesture_mask i (Z.lor g d).

(** [temp = gesture_mask[i] ^ mask[i]; gesture_mask[i] = temp & gesture_mask[i]] *)
Definition disable_byte (mask : u8_ptr) (i : Z) : M unit :=
  do g <- load_gesture_mask i;
  do d <- deref mask i;
  let temp := to_u8 (Z.lxor g d) in
  do g' <- load_gesture_mask i;
  store_gesture_mask i (Z.land temp g').

Definition is_null (p : u8_ptr) : bool :=
  match p with None => true | Some _ => false end.

Definition updateGestureMask (mask : u8_ptr) (size en : Z) : M Z :=
  if negb (is_null mask) then
    if size <=? GESTURE_MASK_SIZE K then
      if en =? FEAT_ENABLE K then
        (if negb (is_null mask) then for_lt size (enable_byte mask)
         else ret tt) ;;
        modify (set_refreshGestureMask 1) ;;
        ret (OK K)
      else if en =? FEAT_DISABLE K then
        for_lt size (disable_byte mask) ;;
        modify (set_refreshGestureMask 1) ;;
        ret (OK K)
      else ret (ERROR_OP_NOT_ALLOW K)
    else ret (ERROR_OP_NOT_ALLOW K)
  else ret (ERROR_OP_NOT_ALLOW K).

Definition enableGesture (mask : u8_ptr) (size : Z) : M Z :=
  if size <=? GESTURE_MASK_SIZE K then
    (if negb (is_null mask) then for_lt size (enable_byte mask)
     else ret tt) ;;
    do g <- reads gesture_mask;
    do res <- setFeatures (FEAT_SEL_GESTURE K) g (GESTURE_MASK_SIZE K);
    if res <? OK K then ret res
    else ret (OK K)
  else ret (ERROR_OP_NOT_ALLOW K).

(** The bytes of [int i = 0], which [disableGesture] passes when [mask] is
    [NULL] ([int] has four bytes). *)
Definition int_zero_bytes : list Z := [0; 0; 0; 0].

Definition disableGesture (mask : u8_ptr) (size : Z) : M Z :=
  if size <=? GESTURE_MASK_SIZE K then
    do pointer <-
      (if negb (is_null mask) then
         for_lt size (disable_byte mask) ;;
         reads gesture_mask
       else ret int_zero_bytes);
    do res <- setFeatures (FEAT_SEL_GESTURE K) pointer (GESTURE_MASK_SIZE K);
    if res <? OK K then ret res
    else ret (OK K)
  else ret (ERROR_OP_NOT_ALLOW K).

(** The code from the label [END] of [enterGestureMode] on. *)
Definition enterGestureMode_END (res : Z) : M Z :=
  do ret_ <- fts_enableInterrupt;
  if ret_ <? OK K
  then ret (Z.lor res (Z.lor ret_ (ERROR_ENABLE_INTER K)))
  else ret res.

(** The code of [enterGestureMode] from [setScanMode] on. *)
Definition enterGestureMode_scan : M Z :=
  do res <- setScanMode (SCAN_MODE_LOW_POWER K) 0;
  if res <? OK K then enterGestureMode_END res
  else enterGestureMode_END (OK K).

Definition enterGestureMode (reload : Z) : M Z :=
  do res <- fts_disableInterrupt;
  if res <? OK K then ret (Z.lor res (ERROR_DISABLE_INTER K))
  else
    do refresh <- reads refreshGestureMask;
    if (reload =? 1) || (refresh =? 1) then
      do res <- enableGesture None 0;
      if res <? OK K then enterGestureMode_END res
      else
        modify (set_refreshGestureMask 0) ;;
        enterGestureMode_scan
    else enterGestureMode_scan.

(** [while (res < (GESTURE_MASK_SIZE - 1) && gesture_mask[res] == 0) res++;]
    [rounds] bounds the rounds; [GESTURE_MASK_SIZE - 1 - res] is enough. *)
Fixpoint isAnyGestureActive_scan (rounds : nat) (res : Z) : M Z :=
  match rounds with
  | O => ret res
  | S rounds' =>
      if res <? GESTURE_MASK_SIZE K - 1 then
        do g <- load_gesture_mask res;
        if g =? 0 then isAnyGestureActive_scan rounds' (res + 1)
        else ret res
      else ret res
  end.

Definition isAnyGestureActive : M Z :=
  do res <- isAnyGestureActive_scan (Z.to_nat (GESTURE_MASK_SIZE K - 1)) 0;
  do g <- load_gesture_mask res;
  if negb (g =? 0) then ret (FEAT_ENABLE K)
  else ret (FEAT_DISABLE K).

(** [((u16)hi & 0x0F) << 8 | ((u16)lo & 0xFF)] *)
Definition unpack12 (lo hi : Z) : Z :=
  Z.lor (Z.shiftl (Z.land (to_u16 hi) 0x0F) 8) (Z.land (to_u16 lo) 0xFF).

(** The body of the decoding loop of [readGestureCoords]; [n] is
    [gesture_coords_reported], which the loop does not change. *)
Definition decode_pair (val : list Z) (n i : Z) : M unit :=
  do xlo <- lift (index val (i * 2));
  do xhi <- lift (index val (i * 2 + 1));
  store_gesture_coordinates_x i (unpack12 xlo xhi) ;;
  do yhi <- lift (index val (n * 2 + i * 2 + 1));
  do ylo <- lift (index val (n * 2 + i * 2));
  store_gesture_coordinates_y i (unpack12 ylo yhi).

Definition readGestureCoords (event : u8_ptr) : M Z :=
  do e0 <- deref event 0;
  do is_gesture <-
    (if e0 =? EVT_ID_USER_REPORT K then
       do e1 <- deref event 1;
       ret (e1 =? EVT_TYPE_USER_GESTURE K)
     else ret false);
  if (is_gesture : bool) then
    do e4 <- deref event 4;
    do e3 <- deref event 3;
    let address := Z.lor (Z.shiftl e4 8) e3 in
    do e5 <- deref event 5;
    modify (set_gesture_coords_reported e5) ;;
    do reported <- reads gesture_coords_reported;
    (if reported >? GESTURE_MAX_COORDS_PAIRS_REPORT K
     then modify (set_gesture_coords_reported
                    (GESTURE_MAX_COORDS_PAIRS_REPORT K))
     else ret tt) ;;
    do n <- reads gesture_coords_reported;
    do '(res, val) <-
      fts_writeReadU8UX (FTS_CMD_FRAMEBUFFER_R K) (BITS_16 K) address
        (GESTURE_MAX_COORDS_PAIRS_REPORT K * 4) (n * 2 * 2)
        (DUMMY_FRAMEBUFFER K);
    if res <? OK K then
      modify (set_gesture_coords_reported (ERROR_OP_NOT_ALLOW K)) ;;
      ret res
    else
      for_lt n (decode_pair val n) ;;
      ret (OK K)
  else ret (ERROR_OP_NOT_ALLOW K).

(** [getGestureCoords] hands out the two global arrays themselves, which
    stay in the world, and returns the count. *)
Definition getGestureCoords : M Z := reads gesture_coords_reported.

(** The entry points of the file. *)
Inductive operation :=
| Op_updateGestureMask (mask : u8_ptr) (size en : Z)
| Op_enableGesture (mask : u8_ptr) (size : Z)
| Op_disableGesture (mask : u8_ptr) (size : Z)
| Op_enterGestureMode (reload : Z)
| Op_isAnyGestureActive
| Op_readGestureCoords (event : u8_ptr)
| Op_getGestureCoords.

Definition run (op : operation) : M Z :=
  match op with
  | Op_updateGestureMask mask size en => updateGestureMask mask size en
  | Op_enableGesture mask size => enableGesture mask size
  | Op_disableGesture mask size => disableGesture mask size
  | Op_enterGestureMode reload => enterGestureMode reload
  | Op_isAnyGestureActive => isAnyGestureActive
  | Op_readGestureCoords event => readGestureCoords event
  | Op_getGestureCoords => getGestureCoords
  end.

End Driver.

(** ** Concrete constants and devices *)

(** Modelled from the spec: the headers that define the macros
    ([ftsGesture.h], [ftsSoftware.h], [ftsError.h], [ftsCore.h]) are not
    among the sources, and the spec gives the macros by name only (a mask of
    [GESTURE_MASK_SIZE] bytes, a buffer of [GESTURE_MAX_COORDS_PAIRS_REPORT]
    pairs, the error taxonomy). [fts521] is one assignment that fits it, used
    to run the code on concrete inputs: a mask of 4 bytes, 100 coordinate
    pairs, [OK] zero and negative error codes. The general theorems hold for
    every assignment that meets their hypotheses. *)
Definition fts521 : Constants := {|
  GESTURE_MASK_SIZE := 4;
  GESTURE_MAX_COORDS_PAIRS_REPORT := 100;
  FEAT_ENABLE := 1;
  FEAT_DISABLE := 0;
  FEAT_SEL_GESTURE := 0x03;
  SCAN_MODE_LOW_POWER := 0x01;
  EVT_ID_USER_REPORT := 0x53;
  EVT_TYPE_USER_GESTURE := 0x03;
  FTS_CMD_FRAMEBUFFER_R := 0xA6;
  BITS_16 := 2;
  DUMMY_FRAMEBUFFER := 1;
  OK := 0;
  ERROR_OP_NOT_ALLOW := 0x8000000E - 2 ^ 32;
  ERROR_DISABLE_INTER := 0x80000200 - 2 ^ 32;
  ERROR_ENABLE_INTER := 0x80000300 - 2 ^ 32
|}.

(** The globals as their initialisers leave them. *)
Definition boot (K : Constants) : world := {|
  gesture_mask := replicate (Z.to_nat (GESTURE_MASK_SIZE K)) 0;
  gesture_coordinates_x :=
    replicate (Z.to_nat (GESTURE_MAX_COORDS_PAIRS_REPORT K)) 0;
  gesture_coordinates_y :=
    replicate (Z.to_nat (GESTURE_MAX_COORDS_PAIRS_REPORT K)) 0;
  gesture_coords_reported := ERROR_OP_NOT_ALLOW K;
  refreshGestureMask := 0;
  trace := []
|}.

(** A device that answers every call with [r] and every read with [bs]. *)
Definition dev_const (r : Z) (bs : list Z) : device :=
  {| dev_result := fun _ _ => r; dev_bytes := fun _ _ => bs |}.

Definition is_setScanMode (c : call) : bool :=
  match c with Call_setScanMode _ _ => true | _ => false end.

Definition is_enableInterrupt (c : call) : bool :=
  match c with Call_enableInterrupt => true | _ => false end.

(** A device on which only [setScanMode] fails, with code [r]. *)
Definition dev_scan_fails (r : Z) : device :=
  {| dev_result := fun _ c => if is_setScanMode c then r else 0;
     dev_bytes := fun _ _ => [] |}.

(** ** Predicates on worlds and traces *)

(** The arrays have their declared sizes and the mask holds bytes. *)
Record wf (K : Constants) (w : world) : Prop := {
  wf_mask_length :
    Z.of_nat (length (gesture_mask w)) = GESTURE_MASK_SIZE K;
  wf_mask_u8 : Forall is_u8 (gesture_mask w);
  wf_x_length :
    Z.of_nat (length (gesture_coordinates_x w))
    = GESTURE_MAX_COORDS_PAIRS_REPORT K;
  wf_y_length :
    Z.of_nat (length (gesture_coordinates_y w))
    = GESTURE_MAX_COORDS_PAIRS_REPORT K
}.

(** Number of recorded calls that satisfy [p]. *)
Fixpoint count_calls (p : call -> bool) (t : list (call * Z)) : nat :=
  match t with
  | [] => O
  | (c, _) :: t' => ((if p c then 1 else 0) + count_calls p t')%nat
  end.

(** The mask of [w] once a loop over the mask, started in [w0] with the
    argument bytes [bs], has treated the bytes below [i]: those became
    [to_u8 (f g d)], the others and the rest of the world are as in [w0]. *)
Definition mask_after (bs : list Z) (f : Z -> Z -> Z)
    (w0 : world) (i : Z) (w : world) : Prop :=
  w = set_gesture_mask (gesture_mask w) w0
  /\ length (gesture_mask w) = length (gesture_mask w0)
  /\ (forall (j : nat) g d,
         Z.of_nat j < i ->
         gesture_mask w0 !! j = Some g -> bs !! j = Some d ->
         gesture_mask w !! j = Some (to_u8 (f g d)))
  /\ (forall j : nat, i <= Z.of_nat j ->
                      gesture_mask w !! j = gesture_mask w0 !! j).

(** The coordinate arrays of [w] once the decoding loop, started in [w0]
    over the buffer [val] with [n] pairs reported, has decoded the pairs
    below [i]; the rest of the world is as in [w0]. *)
Definition decoded_upto (val : list Z) (n : Z)
    (w0 : world) (i : Z) (w : world) : Prop :=
  w = set_gesture_coordinates_y (gesture_coordinates_y w)
        (set_gesture_coordinates_x (gesture_coordinates_x w) w0)
  /\ length (gesture_coordinates_x w) = length (gesture_coordinates_x w0)
  /\ length (gesture_coordinates_y w) = length (gesture_coordinates_y w0)
  /\ forall j, 0 <= j < i ->
       exists xlo xhi ylo yhi,
         index val (j * 2) = Some xlo
         /\ index val (j * 2 + 1) = Some xhi
         /\ index val (n * 2 + j * 2) = Some ylo
         /\ index val (n * 2 + j * 2 + 1) = Some yhi
         /\ index (gesture_coordinates_x w) j = Some (unpack12 xlo xhi)
         /\ index (gesture_coordinates_y w) j = Some (unpack12 ylo yhi).

(** The world a computation leaves ([w] itself when it is undefined). *)
Definition exec {A} (m : M A) (w : world) : world :=
  match m w with
  | Some (_, w') => w'
  | None => w
  end.

(** A gesture event for [fts521]: the two tags, the framebuffer offset
    0x2010 and the number of pairs. *)
Definition gesture_event (count : Z) : list Z :=
  [0x53; 0x03; 0x00; 0x10; 0x20; count].

(** An event of another kind. *)
Definition other_event : list Z := [0x13; 0x00; 0x00; 0x00; 0x00; 0x00].

(** A framebuffer content for two pairs: X bytes first, then Y bytes. *)
Definition payload_two_pairs : list Z :=
  [0x34; 0x01; 0x56; 0x02; 0x78; 0x03; 0x9A; 0x04].

(** The world after a gesture of two pairs was decoded from [boot]. *)
Definition world_after_gesture : world :=
  exec (readGestureCoords fts521 (dev_const 0 payload_two_pairs)
          (Some (gesture_event 2)))
       (boot fts521).

(** C1 as the spec words it: on a header mismatch the decoder returns the
    error and the reported count ends at the sentinel. *)
Definition invalid_event_resets_count (K : Constants) (dev : device)
    (event : list Z) (w : world) : Prop :=
  exists w',
    readGestureCoords K dev (Some event) w = Some (ERROR_OP_NOT_ALLOW K, w')
    /\ gesture_coords_reported w' = ERROR_OP_NOT_ALLOW K.

(** [m] leaves the component [f] of the world as it found it. *)
Definition keeps {A B} (f : world -> B) (m : M A) : Prop :=
  forall w a w', m w = Some (a, w') -> f w' = f w.

(** The result code of a run. *)
Definition code (o : option (Z * world)) : option Z :=
  match o with
  | Some (r, _) => Some r
  | None => None
  end.

(** C8 as the spec words it, for one step from [w] to [w']: when the mask
    has changed the refresh flag is set. *)
Definition refresh_flag_kept (w w' : world) : Prop :=
  gesture_mask w' <> gesture_mask w -> refreshGestureMask w' = 1.

(** C9 as the spec words it, at given arguments: the code for a null or an
    oversized argument, the code for an unrecognised selector and the code
    for a header mismatch differ from one another. *)
Definition distinct_failure_codes (K : Constants) (dev : device) (w : world)
    (delta : list Z) (oversize selector : Z) (event : list Z) : Prop :=
  code (updateGestureMask K None 0 (FEAT_ENABLE K) w)
  <> code (updateGestureMask K (Some delta) 0 selector w)
  /\ code (updateGestureMask K (Some delta) oversize (FEAT_ENABLE K) w)
     <> code (updateGestureMask K (Some delta) 0 selector w)
  /\ code (updateGestureMask K (Some delta) 0 selector w)
     <> code (readGestureCoords K dev (Some event) w)
  /\ code (updateGestureMask K None 0 (FEAT_ENABLE K) w)
     <> code (readGestureCoords K dev (Some event) w).

(** The world after [enableGesture] was given one byte to arm, from
    [boot], on a device that refuses every call with -1. *)
Definition world_after_failed_enable : world :=
  exec (run fts521 (dev_const (-1) []) (Op_enableGesture (Some [0x01]) 1))
       (boot fts521).

(** [boot] with the refresh flag set. *)
Definition world_to_refresh : world :=
  set_refreshGestureMask 1 (boot fts521).

(** [m] keeps the property [P] of the world. *)
Definition preserves {A} (P : world -> Prop) (m : M A) : Prop :=
  forall w a w', m w = Some (a, w') -> P w -> P w'.

(** The reported count is the sentinel or a number of pairs the arrays
    hold. *)
Definition count_ok (K : Constants) (w : world) : Prop :=
  gesture_coords_reported w = ERROR_OP_NOT_ALLOW K
  \/ 0 <= gesture_coords_reported w <= GESTURE_MAX_COORDS_PAIRS_REPORT K.

(** The mask a run leaves. *)
Definition mask_of (o : option (Z * world)) : option (list Z) :=
  match o with
  | Some (_, w) => Some (gesture_mask w)
  | None => None
  end.

Definition is_setFeatures (c : call) : bool :=
  match c with Call_setFeatures _ _ _ => true | _ => false end.

(** A device on which only [setFeatures] fails, with code [r]. *)
Definition dev_push_fails (r : Z) : device :=
  {| dev_result := fun _ c => if is_setFeatures c then r else 0;
     dev_bytes := fun _ _ => [] |}.

(** A device on which only [fts_enableInterrupt] fails, with code [r]. *)
Definition dev_enable_fails (r : Z) : device :=
  {| dev_result := fun _ c => if is_enableInterrupt c then r else 0;
     dev_bytes := fun _ _ => [] |}.

(** [boot] with the gestures of [0x05] armed in byte 1 of the mask. *)
Definition world_armed : world :=
  set_gesture_mask [0x00; 0x05; 0x00; 0x00] (boot fts521).

(** ** The monad and the loops *)

Lemma bind_Some {A B} (m : M A) (k : A -> M B) w a w' :
  m w = Some (a, w') -> bind m k w = k a w'.
Proof. intros H. unfold bind. rewrite H. reflexivity. Qed.

Lemma for_loop_inv (I : Z -> world -> Prop) body n :
  forall from w,
    I from w ->
    (forall i v, from <= i < from + Z.of_nat n -> I i v ->
                 exists v', body i v = Some (tt, v') /\ I (i + 1) v') ->
    exists w', for_loop from n body w = Some (tt, w')
               /\ I (from + Z.of_nat n) w'.
Proof.
  induction n as [|n IH]; intros from w HI Hbody.
  - exists w. split; [reflexivity|]. now replace (from + Z.of_nat 0) with from by lia.
  - destruct (Hbody from w) as (v & Hv & HIv); [lia|assumption|].
    destruct (IH (from + 1) v HIv) as (w' & Hw' & HIw').
    { intros i u Hi. apply Hbody. lia. }
    exists w'. split.
    + cbn [for_loop]. rewrite (bind_Some _ _ _ _ _ Hv). exact Hw'.
    + now replace (from + Z.of_nat (S n)) with (from + 1 + Z.of_nat n) by lia.
Qed.

Lemma for_lt_nonpos bound body w :
  bound <= 0 -> for_lt bound body w = Some (tt, w).
Proof.
  intros H. unfold for_lt. now replace (Z.to_nat bound) with O by lia.
Qed.

Lemma index_Some (a : list Z) (i : Z) v :
  index a i = Some v <-> 0 <= i /\ a !! Z.to_nat i = Some v.
Proof.
  unfold index. destruct (Z.ltb_spec i 0); split; try intros [? ?];
    try discriminate; try lia; auto.
Qed.

Lemma index_in_range (a : list Z) (i : Z) :
  0 <= i < Z.of_nat (length a) -> exists v, index a i = Some v.
Proof.
  intros H. destruct (lookup_lt_is_Some_2 a (Z.to_nat i)) as [v Hv]; [lia|].
  exists v. apply index_Some. split; [lia|exact Hv].
Qed.

Lemma store_in_range (a : list Z) (i v : Z) :
  0 <= i < Z.of_nat (length a) ->
  store a i v = Some (<[Z.to_nat i := v]> a).
Proof.
  intros H. unfold store.
  destruct (Z.leb_spec 0 i); [|lia].
  destruct (Z.ltb_spec i (Z.of_nat (length a))); [reflexivity|lia].
Qed.

(** ** Bytes *)

Lemma to_u8_testbit v k :
  0 <= k < 8 -> Z.testbit (to_u8 v) k = Z.testbit v k.
Proof. intros H. unfold to_u8. apply Z.mod_pow2_bits_low. lia. Qed.

Lemma to_u8_testbit_high v k : 8 <= k -> Z.testbit (to_u8 v) k = false.
Proof. intros H. unfold to_u8. apply Z.mod_pow2_bits_high. lia. Qed.

Lemma is_u8_testbit_high g k : is_u8 g -> 8 <= k -> Z.testbit g k = false.
Proof.
  intros Hg Hk. rewrite <- (Z.mod_small g (2 ^ 8)) by exact Hg.
  apply Z.mod_pow2_bits_high. lia.
Qed.

(** What the disabling assignment leaves in a mask byte. *)
Lemma disable_byte_value g d :
  is_u8 g ->
  to_u8 (Z.land (to_u8 (Z.lxor g d)) g) = Z.land g (Z.lnot d).
Proof.
  intros Hg. apply Z.bits_inj'. intros k Hk.
  destruct (Z.lt_ge_cases k 8) as [Hlt|Hge].
  - rewrite to_u8_testbit, Z.land_spec, to_u8_testbit, Z.lxor_spec,
      Z.land_spec, Z.lnot_spec by lia.
    destruct (Z.testbit g k), (Z.testbit d k); reflexivity.
  - rewrite to_u8_testbit_high, Z.land_spec by lia.
    rewrite (is_u8_testbit_high g k Hg Hge). reflexivity.
Qed.

(** ** The two loops over the mask *)

Section MaskLoop.

Context (bs : list Z) (f : Z -> Z -> Z) (body : Z -> M unit).

(** One round replaces byte [i] of the mask by [to_u8 (f g d)], where [g] is
    that byte and [d] byte [i] of the argument. *)
Hypothesis body_round :
  forall i w g d,
    index (gesture_mask w) i = Some g -> index bs i = Some d ->
    body i w
    = Some (tt, set_gesture_mask
                  (<[Z.to_nat i := to_u8 (f g d)]> (gesture_mask w)) w).

Lemma mask_loop w0 size :
  size <= Z.of_nat (length (gesture_mask w0)) ->
  size <= Z.of_nat (length bs) ->
  exists w, for_lt size body w0 = Some (tt, w)
            /\ mask_after bs f w0 (Z.max 0 size) w.
Proof.
  intros Hm Hb. unfold for_lt.
  replace (Z.max 0 size) with (0 + Z.of_nat (Z.to_nat size)) by lia.
  apply for_loop_inv.
  - repeat split; try lia. now destruct w0.
  - intros i v Hi (Hv & Hlen & Hlow & Hhigh).
    destruct (index_in_range (gesture_mask v) i) as [g Hg]; [lia|].
    destruct (index_in_range bs i) as [d Hd]; [lia|].
    eexists. split; [apply (body_round i v g d Hg Hd)|].
    apply index_Some in Hg as [_ Hg]. apply index_Some in Hd as [_ Hd].
    rewrite Hhigh in Hg by lia.
    repeat split.
    + rewrite Hv at 2. reflexivity.
    + cbn. rewrite length_insert. exact Hlen.
    + intros j g' d' Hj Hg' Hd'. cbn.
      destruct (decide (j = Z.to_nat i)) as [->|Hne].
      * rewrite list_lookup_insert_eq by lia. congruence.
      * rewrite list_lookup_insert_ne by congruence.
        apply Hlow; [lia|assumption..].
    + intros j Hj. cbn.
      rewrite list_lookup_insert_ne by lia. apply Hhigh. lia.
Qed.

End MaskLoop.

Lemma enable_byte_round bs i w g d :
  index (gesture_mask w) i = Some g -> index bs i = Some d ->
  enable_byte (Some bs) i w
  = Some (tt, set_gesture_mask
                (<[Z.to_nat i := to_u8 (Z.lor g d)]> (gesture_mask w)) w).
Proof.
  intros Hg Hd.
  assert (Hr : 0 <= i < Z.of_nat (length (gesture_mask w))).
  { apply index_Some in Hg as [? Hg]. apply lookup_lt_Some in Hg. lia. }
  unfold enable_byte, load_gesture_mask, store_gesture_mask, deref,
    bind, reads, lift, modify.
  rewrite Hg; cbv beta iota. rewrite Hd; cbv beta iota.
  rewrite store_in_range by exact Hr. reflexivity.
Qed.

Lemma disable_byte_round bs i w g d :
  index (gesture_mask w) i = Some g -> index bs i = Some d ->
  disable_byte (Some bs) i w
  = Some (tt, set_gesture_mask
                (<[Z.to_nat i :=
                     to_u8 (Z.land (to_u8 (Z.lxor g d)) g)]>
                   (gesture_mask w)) w).
Proof.
  intros Hg Hd.
  assert (Hr : 0 <= i < Z.of_nat (length (gesture_mask w))).
  { apply index_Some in Hg as [? Hg]. apply lookup_lt_Some in Hg. lia. }
  unfold disable_byte, load_gesture_mask, store_gesture_mask, deref,
    bind, reads, lift, modify.
  rewrite Hg; cbv beta iota. rewrite Hd; cbv beta iota.
  rewrite Hg; cbv beta iota zeta.
  rewrite store_in_range by exact Hr. reflexivity.
Qed.

(** The enabling loop: defined when the argument has [size] bytes. *)
Lemma enable_loop bs w0 size :
  size <= Z.of_nat (length (gesture_mask w0)) ->
  size <= Z.of_nat (length bs) ->
  exists w, for_lt size (enable_byte (Some bs)) w0 = Some (tt, w)
            /\ mask_after bs Z.lor w0 (Z.max 0 size) w.
Proof. apply mask_loop. apply enable_byte_round. Qed.

Lemma disable_loop bs w0 size :
  size <= Z.of_nat (length (gesture_mask w0)) ->
  size <= Z.of_nat (length bs) ->
  exists w, for_lt size (disable_byte (Some bs)) w0 = Some (tt, w)
            /\ mask_after bs (fun g d => Z.land (to_u8 (Z.lxor g d)) g)
                 w0 (Z.max 0 size) w.
Proof.
  apply (mask_loop bs (fun g d => Z.land (to_u8 (Z.lxor g d)) g)).
  apply disable_byte_round.
Qed.

(** ** updateGestureMask *)

Ltac solve_wf :=
  split; cbn;
  [ reflexivity
  | repeat (constructor; [unfold is_u8; lia|]); constructor
  | reflexivity
  | reflexivity ].

(** C2. With a non-null argument of at least [size] bytes and
    [0 <= size <= GESTURE_MASK_SIZE], enabling returns [OK]; afterwards every
    bit set in one of the first [size] bytes of the argument is set in the
    same byte of the mask, every bit that was set in those bytes is still
    set, and the bytes from index [size] on are unchanged. *)
Theorem updateGestureMask_enable_sets_bits K w delta size :
  wf K w ->
  0 <= size <= GESTURE_MASK_SIZE K ->
  size <= Z.of_nat (length delta) ->
  exists w',
    updateGestureMask K (Some delta) size (FEAT_ENABLE K) w
    = Some (OK K, w')
    /\ (forall (i : nat) g d,
          Z.of_nat i < size ->
          gesture_mask w !! i = Some g -> delta !! i = Some d ->
          exists g',
            gesture_mask w' !! i = Some g'
            /\ forall k, 0 <= k < 8 ->
                 (Z.testbit d k = true -> Z.testbit g' k = true)
                 /\ (Z.testbit g k = true -> Z.testbit g' k = true))
    /\ (forall i : nat,
          size <= Z.of_nat i -> gesture_mask w' !! i = gesture_mask w !! i).
Proof.
  intros Hwf Hsize Hdelta.
  destruct (enable_loop delta w size) as (v & Hv & Hsame & Hlen & Hlow & Hhigh).
  { rewrite (wf_mask_length K w Hwf). lia. }
  { exact Hdelta. }
  exists (set_refreshGestureMask 1 v). split; [|split].
  - unfold updateGestureMask. cbn [is_null negb].
    destruct (Z.leb_spec size (GESTURE_MASK_SIZE K)); [|lia].
    rewrite Z.eqb_refl.
    rewrite (bind_Some _ _ _ _ _ Hv). reflexivity.
  - intros i g d Hi Hg Hd. exists (to_u8 (Z.lor g d)). split.
    + cbn. apply (Hlow i g d); [lia|assumption..].
    + intros k Hk. rewrite to_u8_testbit, Z.lor_spec by exact Hk.
      split; intros ->; [apply orb_true_r|reflexivity].
  - intros i Hi. cbn. apply Hhigh. lia.
Qed.

Lemma updateGestureMask_enable_sets_bits_witness :
  exists w',
    updateGestureMask fts521 (Some [0x05; 0x81]) 2 (FEAT_ENABLE fts521)
      (boot fts521)
    = Some (OK fts521, w')
    /\ (forall (i : nat) g d,
          Z.of_nat i < 2 ->
          gesture_mask (boot fts521) !! i = Some g ->
          [0x05; 0x81] !! i = Some d ->
          exists g',
            gesture_mask w' !! i = Some g'
            /\ forall k, 0 <= k < 8 ->
                 (Z.testbit d k = true -> Z.testbit g' k = true)
                 /\ (Z.testbit g k = true -> Z.testbit g' k = true))
    /\ (forall i : nat,
          2 <= Z.of_nat i ->
          gesture_mask w' !! i = gesture_mask (boot fts521) !! i).
Proof.
  apply (updateGestureMask_enable_sets_bits fts521 (boot fts521)
           [0x05; 0x81] 2).
  - solve_wf.
  - cbn. lia.
  - cbn. lia.
Defined.

(** C3. With a non-null argument [D] of at least [size] bytes and
    [0 <= size <= GESTURE_MASK_SIZE], disabling returns [OK]; afterwards
    every covered byte of the mask is its old value AND NOT the byte of [D]
    (bit by bit: set exactly where it was set and [D] is clear), and the
    bytes from index [size] on are unchanged. *)
Theorem updateGestureMask_disable_clears_bits K w D size :
  wf K w ->
  FEAT_DISABLE K <> FEAT_ENABLE K ->
  0 <= size <= GESTURE_MASK_SIZE K ->
  size <= Z.of_nat (length D) ->
  exists w',
    updateGestureMask K (Some D) size (FEAT_DISABLE K) w = Some (OK K, w')
    /\ (forall (i : nat) g d,
          Z.of_nat i < size ->
          gesture_mask w !! i = Some g -> D !! i = Some d ->
          gesture_mask w' !! i = Some (Z.land g (Z.lnot d))
          /\ forall k, 0 <= k ->
               Z.testbit (Z.land g (Z.lnot d)) k
               = Z.testbit g k && negb (Z.testbit d k))
    /\ (forall i : nat,
          size <= Z.of_nat i -> gesture_mask w' !! i = gesture_mask w !! i).
Proof.
  intros Hwf Hsel Hsize HD.
  destruct (disable_loop D w size) as (v & Hv & Hsame & Hlen & Hlow & Hhigh).
  { rewrite (wf_mask_length K w Hwf). lia. }
  { exact HD. }
  exists (set_refreshGestureMask 1 v). split; [|split].
  - unfold updateGestureMask. cbn [is_null negb].
    destruct (Z.leb_spec size (GESTURE_MASK_SIZE K)); [|lia].
    destruct (Z.eqb_spec (FEAT_DISABLE K) (FEAT_ENABLE K)); [contradiction|].
    rewrite Z.eqb_refl.
    rewrite (bind_Some _ _ _ _ _ Hv). reflexivity.
  - intros i g d Hi Hg Hd. split.
    + cbn. rewrite (Hlow i g d) by (lia || assumption).
      rewrite disable_byte_value; [reflexivity|].
      exact (Forall_lookup_1 _ _ _ _ (wf_mask_u8 K w Hwf) Hg).
    + intros k Hk. rewrite Z.land_spec, Z.lnot_spec by exact Hk. reflexivity.
  - intros i Hi. cbn. apply Hhigh. lia.
Qed.

Lemma updateGestureMask_disable_clears_bits_witness :
  exists w',
    updateGestureMask fts521 (Some [0x0F]) 1 (FEAT_DISABLE fts521)
      (set_gesture_mask [0x3C; 0xFF; 0; 0] (boot fts521))
    = Some (OK fts521, w')
    /\ (forall (i : nat) g d,
          Z.of_nat i < 1 ->
          [0x3C; 0xFF; 0; 0] !! i = Some g -> [0x0F] !! i = Some d ->
          gesture_mask w' !! i = Some (Z.land g (Z.lnot d))
          /\ forall k, 0 <= k ->
               Z.testbit (Z.land g (Z.lnot d)) k
               = Z.testbit g k && negb (Z.testbit d k))
    /\ (forall i : nat,
          1 <= Z.of_nat i ->
          gesture_mask w' !! i = [0x3C; 0xFF; 0; 0] !! i).
Proof.
  apply (updateGestureMask_disable_clears_bits fts521
           (set_gesture_mask [0x3C; 0xFF; 0; 0] (boot fts521)) [0x0F] 1).
  - solve_wf.
  - cbn. lia.
  - cbn. lia.
  - cbn. lia.
Defined.

(** C10. With a non-null argument, a size of zero or less and one of the two
    recognised selectors, [updateGestureMask] returns [OK], leaves the mask
    as it was and sets the refresh flag. *)
Theorem updateGestureMask_nonpositive_size K w delta size en :
  0 <= GESTURE_MASK_SIZE K ->
  size <= 0 ->
  en = FEAT_ENABLE K \/ en = FEAT_DISABLE K ->
  exists w',
    updateGestureMask K (Some delta) size en w = Some (OK K, w')
    /\ gesture_mask w' = gesture_mask w
    /\ refreshGestureMask w' = 1
    /\ w' = set_refreshGestureMask 1 w.
Proof.
  intros HK Hsize Hen.
  exists (set_refreshGestureMask 1 w).
  split; [|repeat split].
  unfold updateGestureMask. cbn [is_null negb].
  destruct (Z.leb_spec size (GESTURE_MASK_SIZE K)); [|lia].
  destruct (Z.eqb_spec en (FEAT_ENABLE K)).
  - unfold bind. rewrite for_lt_nonpos by exact Hsize. reflexivity.
  - destruct Hen as [?| ->]; [contradiction|].
    rewrite Z.eqb_refl.
    unfold bind. rewrite for_lt_nonpos by exact Hsize. reflexivity.
Qed.

Lemma updateGestureMask_nonpositive_size_witness :
  exists w',
    updateGestureMask fts521 (Some [0xFF]) (-3) (FEAT_DISABLE fts521)
      (boot fts521)
    = Some (OK fts521, w')
    /\ gesture_mask w' = gesture_mask (boot fts521)
    /\ refreshGestureMask w' = 1
    /\ w' = set_refreshGestureMask 1 (boot fts521).
Proof.
  apply (updateGestureMask_nonpositive_size fts521 (boot fts521)
           [0xFF] (-3) (FEAT_DISABLE fts521)).
  - cbn. lia.
  - lia.
  - right. reflexivity.
Defined.

(** ** enterGestureMode *)

(** C6. When [fts_disableInterrupt] fails, [enterGestureMode] returns its
    code or-ed with [ERROR_DISABLE_INTER] at once: the only collaborator call
    made is that one ([setFeatures], [setScanMode] and [fts_enableInterrupt]
    are not called), and the mask and the refresh flag are unchanged. *)
Theorem enterGestureMode_disable_failure K dev w reload :
  dev_result dev (trace w) Call_disableInterrupt < OK K ->
  exists w',
    enterGestureMode K dev reload w
    = Some (Z.lor (dev_result dev (trace w) Call_disableInterrupt)
              (ERROR_DISABLE_INTER K), w')
    /\ trace w'
       = (Call_disableInterrupt,
          dev_result dev (trace w) Call_disableInterrupt) :: trace w
    /\ gesture_mask w' = gesture_mask w
    /\ refreshGestureMask w' = refreshGestureMask w.
Proof.
  intros Hfail. eexists. split.
  - unfold enterGestureMode, fts_disableInterrupt, invoke, bind.
    cbv beta iota zeta.
    destruct (Z.ltb_spec (dev_result dev (trace w) Call_disableInterrupt)
                (OK K)); [reflexivity|lia].
  - repeat split.
Qed.

Lemma enterGestureMode_disable_failure_witness :
  exists w',
    enterGestureMode fts521 (dev_const (-1) []) 1 (boot fts521)
    = Some (Z.lor (-1) (ERROR_DISABLE_INTER fts521), w')
    /\ trace w' = [(Call_disableInterrupt, -1)]
    /\ gesture_mask w' = gesture_mask (boot fts521)
    /\ refreshGestureMask w' = refreshGestureMask (boot fts521).
Proof.
  apply (enterGestureMode_disable_failure fts521 (dev_const (-1) [])
           (boot fts521) 1).
  cbn. lia.
Defined.

Lemma enterGestureMode_END_run K dev res w :
  enterGestureMode_END K dev res w
  = Some (if dev_result dev (trace w) Call_enableInterrupt <? OK K
          then Z.lor res
                 (Z.lor (dev_result dev (trace w) Call_enableInterrupt)
                    (ERROR_ENABLE_INTER K))
          else res,
          set_trace
            ((Call_enableInterrupt,
              dev_result dev (trace w) Call_enableInterrupt) :: trace w) w).
Proof.
  unfold enterGestureMode_END, fts_enableInterrupt, invoke, bind.
  cbv beta iota zeta.
  destruct (dev_result dev (trace w) Call_enableInterrupt <? OK K);
    reflexivity.
Qed.

Lemma enterGestureMode_scan_run K dev w :
  enterGestureMode_scan K dev w
  = enterGestureMode_END K dev
      (if dev_result dev (trace w)
            (Call_setScanMode (SCAN_MODE_LOW_POWER K) 0) <? OK K
       then dev_result dev (trace w)
              (Call_setScanMode (SCAN_MODE_LOW_POWER K) 0)
       else OK K)
      (set_trace
         ((Call_setScanMode (SCAN_MODE_LOW_POWER K) 0,
           dev_result dev (trace w)
             (Call_setScanMode (SCAN_MODE_LOW_POWER K) 0)) :: trace w) w).
Proof.
  unfold enterGestureMode_scan, setScanMode, invoke, bind.
  cbv beta iota zeta.
  destruct (dev_result dev (trace w)
              (Call_setScanMode (SCAN_MODE_LOW_POWER K) 0) <? OK K);
    reflexivity.
Qed.

(** [enableGesture(NULL, size)]: the mask as it is goes to [setFeatures]. *)
Lemma enableGesture_NULL_run K dev size w :
  enableGesture K dev None size w
  = if size <=? GESTURE_MASK_SIZE K then
      Some (if dev_result dev (trace w)
                 (Call_setFeatures (FEAT_SEL_GESTURE K) (gesture_mask w)
                    (GESTURE_MASK_SIZE K)) <? OK K
            then dev_result dev (trace w)
                   (Call_setFeatures (FEAT_SEL_GESTURE K) (gesture_mask w)
                      (GESTURE_MASK_SIZE K))
            else OK K,
            set_trace
              ((Call_setFeatures (FEAT_SEL_GESTURE K) (gesture_mask w)
                  (GESTURE_MASK_SIZE K),
                dev_result dev (trace w)
                  (Call_setFeatures (FEAT_SEL_GESTURE K) (gesture_mask w)
                     (GESTURE_MASK_SIZE K))) :: trace w) w)
    else Some (ERROR_OP_NOT_ALLOW K, w).
Proof.
  unfold enableGesture, setFeatures, invoke, bind, reads, ret.
  cbn [is_null negb]. cbv beta iota zeta.
  destruct (size <=? GESTURE_MASK_SIZE K); [|reflexivity].
  destruct (dev_result dev (trace w)
              (Call_setFeatures (FEAT_SEL_GESTURE K) (gesture_mask w)
                 (GESTURE_MASK_SIZE K)) <? OK K);
    reflexivity.
Qed.

(** Case analysis on the comparisons that decide the path taken. *)
Ltac split_path :=
  match goal with
  | |- context [?a <? ?b] => destruct (Z.ltb_spec a b)
  | |- context [?a <=? ?b] => destruct (Z.leb_spec a b)
  | |- context [if ?c then _ else _] => destruct c eqn:?
  end.

Ltac world_simpl :=
  cbn [trace set_trace set_refreshGestureMask set_gesture_mask
       set_gesture_coordinates_x set_gesture_coordinates_y
       set_gesture_coords_reported gesture_mask refreshGestureMask gesture_coords_reported
       gesture_coordinates_x gesture_coordinates_y] in *.

(** The calls added in front of the trace of [w]. *)
Ltac new_calls w :=
  match goal with
  | |- ?a :: ?b :: ?c :: ?d :: trace w = _ =>
      exact (eq_refl ([a; b; c; d] ++ trace w))
  | |- ?a :: ?b :: ?c :: trace w = _ =>
      exact (eq_refl ([a; b; c] ++ trace w))
  | |- ?a :: ?b :: trace w = _ => exact (eq_refl ([a; b] ++ trace w))
  | |- ?a :: trace w = _ => exact (eq_refl ([a] ++ trace w))
  | |- trace w = _ => exact (eq_refl ([] ++ trace w))
  end.

(** Closes the last part of C7 on a given path: the recorded results are
    the only ones the hypotheses can speak of. *)
Ltac only_scan_failure :=
  let H1 := fresh in
  let H2 := fresh in
  intros ? ? H1 ? H2 ?; cbn in H1, H2;
  repeat match goal with
         | H : _ \/ _ |- _ => destruct H
         | H : False |- _ => destruct H
         | H : (_, _) = (_, _) |- _ => inversion H; clear H
         end;
  subst; try reflexivity; try lia.

(** C7. When [fts_disableInterrupt] succeeds, [enterGestureMode] returns
    and has called [fts_enableInterrupt] exactly once, whatever
    [setFeatures] and [setScanMode] answer; and when [setScanMode] was
    called and failed while [fts_enableInterrupt] succeeded, the value
    returned is the code of [setScanMode]. *)
Theorem enterGestureMode_enables_once K dev w reload :
  ~ dev_result dev (trace w) Call_disableInterrupt < OK K ->
  exists r w' new,
    enterGestureMode K dev reload w = Some (r, w')
    /\ trace w' = new ++ trace w
    /\ count_calls is_enableInterrupt new = 1%nat
    /\ (forall rs re,
          In (Call_setScanMode (SCAN_MODE_LOW_POWER K) 0, rs) new ->
          rs < OK K ->
          In (Call_enableInterrupt, re) new ->
          ~ re < OK K ->
          r = rs).
Proof.
  intros Hdis.
  unfold enterGestureMode, fts_disableInterrupt, invoke, bind, reads, modify.
  cbv beta iota zeta.
  destruct (Z.ltb_spec (dev_result dev (trace w) Call_disableInterrupt)
              (OK K)) as [?|_]; [contradiction|].
  destruct ((reload =? 1) || (refreshGestureMask _ =? 1));
    repeat first
      [ rewrite enableGesture_NULL_run
      | rewrite enterGestureMode_scan_run
      | rewrite enterGestureMode_END_run
      | progress cbv beta iota zeta
      | progress world_simpl
      | split_path ];
    try lia.
  all: eexists _, _, _.
  all: split; [reflexivity|].
  all: split; [world_simpl; new_calls w|].
  all: split; [reflexivity|].
  all: only_scan_failure.
Qed.

Lemma enterGestureMode_enables_once_witness :
  exists r w' new,
    enterGestureMode fts521 (dev_scan_fails (-5)) 1 (boot fts521)
    = Some (r, w')
    /\ trace w' = new ++ trace (boot fts521)
    /\ count_calls is_enableInterrupt new = 1%nat
    /\ (forall rs re,
          In (Call_setScanMode (SCAN_MODE_LOW_POWER fts521) 0, rs) new ->
          rs < OK fts521 ->
          In (Call_enableInterrupt, re) new ->
          ~ re < OK fts521 ->
          r = rs).
Proof.
  apply (enterGestureMode_enables_once fts521 (dev_scan_fails (-5))
           (boot fts521) 1).
  cbn. lia.
Defined.

(** A run in which only [setScanMode] fails, with -5. *)
Example enterGestureMode_scan_failure_run :
  code (enterGestureMode fts521 (dev_scan_fails (-5)) 1 (boot fts521))
  = Some (-5)
  /\ trace (exec (enterGestureMode fts521 (dev_scan_fails (-5)) 1)
              (boot fts521))
     = [(Call_enableInterrupt, 0);
        (Call_setScanMode 1 0, -5);
        (Call_setFeatures 3 [0; 0; 0; 0] 4, 0);
        (Call_disableInterrupt, 0)].
Proof. split; reflexivity. Qed.

(** ** readGestureCoords *)

Lemma land_u16_nibble v : Z.land (to_u16 v) 0x0F = v mod 2 ^ 4.
Proof.
  change 0x0F with (Z.ones 4). rewrite Z.land_ones by lia.
  unfold to_u16. apply Z.mod_mod_divide.
  exists (2 ^ 12). reflexivity.
Qed.

Lemma land_u16_byte v : Z.land (to_u16 v) 0xFF = v mod 2 ^ 8.
Proof.
  change 0xFF with (Z.ones 8). rewrite Z.land_ones by lia.
  unfold to_u16. apply Z.mod_mod_divide.
  exists (2 ^ 8). reflexivity.
Qed.

(** The packing: the low byte gives bits 0-7, the low nibble of the high
    byte bits 8-11. *)
Lemma unpack12_value lo hi :
  unpack12 lo hi = lo mod 2 ^ 8 + 2 ^ 8 * (hi mod 2 ^ 4).
Proof.
  unfold unpack12. rewrite land_u16_nibble, land_u16_byte.
  assert (Hlo : 0 <= lo mod 2 ^ 8 < 2 ^ 8) by (apply Z.mod_pos_bound; lia).
  assert (Hhi : 0 <= hi mod 2 ^ 4 < 2 ^ 4) by (apply Z.mod_pos_bound; lia).
  assert (Hdisj : Z.land (Z.shiftl (hi mod 2 ^ 4) 8) (lo mod 2 ^ 8) = 0).
  { apply Z.bits_inj'. intros k Hk. rewrite Z.land_spec, Z.bits_0.
    destruct (Z.lt_ge_cases k 8).
    - rewrite Z.shiftl_spec_low by lia. reflexivity.
    - rewrite (is_u8_testbit_high (lo mod 2 ^ 8) k Hlo) by lia.
      apply andb_false_r. }
  rewrite <- Z.lxor_lor, <- Z.add_nocarry_lxor by exact Hdisj.
  rewrite Z.shiftl_mul_pow2 by lia. lia.
Qed.

Lemma unpack12_u16 lo hi : to_u16 (unpack12 lo hi) = unpack12 lo hi.
Proof.
  rewrite unpack12_value. unfold to_u16.
  assert (0 <= lo mod 2 ^ 8 < 2 ^ 8) by (apply Z.mod_pos_bound; lia).
  assert (0 <= hi mod 2 ^ 4 < 2 ^ 4) by (apply Z.mod_pos_bound; lia).
  apply Z.mod_small. lia.
Qed.

Lemma index_insert_eq (a : list Z) (i v : Z) :
  0 <= i < Z.of_nat (length a) ->
  index (<[Z.to_nat i := v]> a) i = Some v.
Proof.
  intros H. apply index_Some. split; [lia|].
  apply list_lookup_insert_eq. lia.
Qed.

Lemma index_insert_ne (a : list Z) (i j v : Z) :
  0 <= i -> 0 <= j -> i <> j ->
  index (<[Z.to_nat i := v]> a) j = index a j.
Proof.
  intros Hi Hj Hne. unfold index.
  destruct (j <? 0); [reflexivity|].
  apply list_lookup_insert_ne. lia.
Qed.

(** One round of the decoding loop. *)
Lemma decode_pair_round val n i w xlo xhi ylo yhi :
  0 <= i < Z.of_nat (length (gesture_coordinates_x w)) ->
  i < Z.of_nat (length (gesture_coordinates_y w)) ->
  index val (i * 2) = Some xlo ->
  index val (i * 2 + 1) = Some xhi ->
  index val (n * 2 + i * 2) = Some ylo ->
  index val (n * 2 + i * 2 + 1) = Some yhi ->
  decode_pair val n i w
  = Some (tt,
          set_gesture_coordinates_y
            (<[Z.to_nat i := unpack12 ylo yhi]> (gesture_coordinates_y w))
            (set_gesture_coordinates_x
               (<[Z.to_nat i := unpack12 xlo xhi]> (gesture_coordinates_x w))
               w)).
Proof.
  intros Hx Hy H1 H2 H3 H4.
  unfold decode_pair, store_gesture_coordinates_x,
    store_gesture_coordinates_y, bind, reads, lift, modify.
  rewrite H1; cbv beta iota. rewrite H2; cbv beta iota.
  rewrite store_in_range by exact Hx. cbv beta iota.
  rewrite H4; cbv beta iota. rewrite H3; cbv beta iota.
  world_simpl. rewrite store_in_range by lia.
  rewrite !unpack12_u16. reflexivity.
Qed.

(** The decoding loop is defined when the arrays hold [n] pairs and the
    buffer [4 * n] bytes, and decodes every pair below [n]. *)
Lemma decode_loop val n w0 :
  n <= Z.of_nat (length (gesture_coordinates_x w0)) ->
  n <= Z.of_nat (length (gesture_coordinates_y w0)) ->
  n * 4 <= Z.of_nat (length val) ->
  exists w, for_lt n (decode_pair val n) w0 = Some (tt, w)
            /\ decoded_upto val n w0 (Z.max 0 n) w.
Proof.
  intros Hx Hy Hval. unfold for_lt.
  replace (Z.max 0 n) with (0 + Z.of_nat (Z.to_nat n)) by lia.
  apply for_loop_inv.
  - repeat split; try lia. now destruct w0.
  - intros i v Hi (Hv & Hlx & Hly & Hdone).
    destruct (index_in_range val (i * 2)) as [xlo Hxlo]; [lia|].
    destruct (index_in_range val (i * 2 + 1)) as [xhi Hxhi]; [lia|].
    destruct (index_in_range val (n * 2 + i * 2)) as [ylo Hylo]; [lia|].
    destruct (index_in_range val (n * 2 + i * 2 + 1)) as [yhi Hyhi]; [lia|].
    eexists. split.
    { apply (decode_pair_round val n i v xlo xhi ylo yhi); try assumption;
        lia. }
    repeat split.
    + rewrite Hv at 3. reflexivity.
    + cbn. rewrite length_insert. exact Hlx.
    + cbn. rewrite length_insert. exact Hly.
    + intros j Hj. cbn.
      destruct (Z.eq_dec j i) as [->|Hne].
      * exists xlo, xhi, ylo, yhi.
        rewrite !index_insert_eq by lia. repeat split; assumption.
      * destruct (Hdone j) as (a & b & c & d & ? & ? & ? & ? & ? & ?);
          [lia|].
        exists a, b, c, d.
        rewrite !index_insert_ne by lia. repeat split; assumption.
Qed.

(** The run of [readGestureCoords] on an event with the two expected tags,
    up to the decoding loop. *)
Lemma readGestureCoords_gesture_run K dev w event e3 e4 e5 :
  index event 0 = Some (EVT_ID_USER_REPORT K) ->
  index event 1 = Some (EVT_TYPE_USER_GESTURE K) ->
  index event 3 = Some e3 ->
  index event 4 = Some e4 ->
  index event 5 = Some e5 ->
  forall n c,
    n = (if e5 >? GESTURE_MAX_COORDS_PAIRS_REPORT K
         then GESTURE_MAX_COORDS_PAIRS_REPORT K else e5) ->
    c = Call_writeReadU8UX (FTS_CMD_FRAMEBUFFER_R K) (BITS_16 K)
          (Z.lor (Z.shiftl e4 8) e3) (n * 2 * 2) (DUMMY_FRAMEBUFFER K) ->
    readGestureCoords K dev (Some event) w
    = if dev_result dev (trace w) c <? OK K then
        Some (dev_result dev (trace w) c,
              set_gesture_coords_reported (ERROR_OP_NOT_ALLOW K)
                (set_trace ((c, dev_result dev (trace w) c) :: trace w) w))
      else
        (for_lt n
           (decode_pair
              (resize (Z.to_nat (GESTURE_MAX_COORDS_PAIRS_REPORT K * 4)) 0
                 (dev_bytes dev (trace w) c)) n) ;;
         ret (OK K))
          (set_trace ((c, dev_result dev (trace w) c) :: trace w)
             (set_gesture_coords_reported n w)).
Proof.
  intros H0 H1 H3 H4 H5 n c -> ->.
  unfold readGestureCoords, deref, fts_writeReadU8UX, bind, reads, lift,
    modify, ret.
  rewrite H0; cbv beta iota. rewrite Z.eqb_refl.
  rewrite H1; cbv beta iota. rewrite Z.eqb_refl.
  rewrite H4; cbv beta iota. rewrite H3; cbv beta iota.
  rewrite H5; cbv beta iota zeta. world_simpl.
  destruct (e5 >? GESTURE_MAX_COORDS_PAIRS_REPORT K); world_simpl;
    match goal with
    | |- context [if ?r <? OK K then _ else _] => destruct (r <? OK K)
    end; reflexivity.
Qed.

(** C1, as the code has it. An event of six bytes or more whose byte 0 or
    byte 1 is not the expected tag makes [readGestureCoords] return
    [ERROR_OP_NOT_ALLOW] and change nothing: the reported count keeps the
    value it had, be it the sentinel or the count of an earlier gesture. *)
Theorem readGestureCoords_invalid_event K dev w event :
  6 <= Z.of_nat (length event) ->
  index event 0 <> Some (EVT_ID_USER_REPORT K)
  \/ index event 1 <> Some (EVT_TYPE_USER_GESTURE K) ->
  readGestureCoords K dev (Some event) w = Some (ERROR_OP_NOT_ALLOW K, w)
  /\ gesture_coords_reported
       (exec (readGestureCoords K dev (Some event)) w)
     = gesture_coords_reported w.
Proof.
  intros Hlen Htag.
  assert (Hrun : readGestureCoords K dev (Some event) w
                 = Some (ERROR_OP_NOT_ALLOW K, w)).
  { destruct (index_in_range event 0) as [e0 He0]; [lia|].
    destruct (index_in_range event 1) as [e1 He1]; [lia|].
    unfold readGestureCoords, deref, bind, lift, ret.
    rewrite He0; cbv beta iota.
    destruct (Z.eqb_spec e0 (EVT_ID_USER_REPORT K)) as [->|]; [|reflexivity].
    rewrite He1; cbv beta iota.
    destruct (Z.eqb_spec e1 (EVT_TYPE_USER_GESTURE K)) as [->|];
      [|reflexivity].
    destruct Htag as [Htag|Htag]; contradiction. }
  split; [exact Hrun|]. unfold exec. rewrite Hrun. reflexivity.
Qed.

Lemma readGestureCoords_invalid_event_witness :
  6 <= Z.of_nat (length other_event)
  /\ readGestureCoords fts521 (dev_const 0 payload_two_pairs)
       (Some other_event) world_after_gesture
     = Some (ERROR_OP_NOT_ALLOW fts521, world_after_gesture)
  /\ gesture_coords_reported
       (exec (readGestureCoords fts521 (dev_const 0 payload_two_pairs)
                (Some other_event)) world_after_gesture)
     = gesture_coords_reported world_after_gesture.
Proof.
  split; [cbn; lia|].
  apply (readGestureCoords_invalid_event fts521
           (dev_const 0 payload_two_pairs) world_after_gesture other_event).
  - cbn. lia.
  - left. vm_compute. discriminate.
Defined.

(** C1 fails as worded: after a gesture of two pairs, an event of another
    kind is refused with [ERROR_OP_NOT_ALLOW] and the reported count is
    still 2, not the sentinel. *)
Lemma readGestureCoords_invalid_event_stale_count :
  gesture_coords_reported world_after_gesture = 2
  /\ readGestureCoords fts521 (dev_const 0 payload_two_pairs)
       (Some other_event) world_after_gesture
     = Some (ERROR_OP_NOT_ALLOW fts521, world_after_gesture)
  /\ ~ invalid_event_resets_count fts521 (dev_const 0 payload_two_pairs)
         other_event world_after_gesture.
Proof.
  split; [reflexivity|]. split; [reflexivity|].
  intros (w' & Hrun & Hcount).
  assert (Hw : w' = world_after_gesture).
  { change (readGestureCoords fts521 (dev_const 0 payload_two_pairs)
              (Some other_event) world_after_gesture)
      with (Some (ERROR_OP_NOT_ALLOW fts521, world_after_gesture)) in Hrun.
    congruence. }
  subst w'. vm_compute in Hcount. discriminate.
Qed.

(** C4. On an event with the expected tags whose count byte exceeds
    [GESTURE_MAX_COORDS_PAIRS_REPORT], [readGestureCoords] is defined (no
    access falls outside the coordinate arrays or the local buffer): it makes
    one bus read, of [GESTURE_MAX_COORDS_PAIRS_REPORT * 4] bytes, the whole
    buffer; when the read succeeds it returns [OK] with the reported count
    clamped to [GESTURE_MAX_COORDS_PAIRS_REPORT], when the read fails it
    returns the read's code with the count at the sentinel; the arrays keep
    their sizes and every index the loop uses is below the capacity. *)
Theorem readGestureCoords_over_report K dev w event e3 e4 e5 :
  wf K w ->
  index event 0 = Some (EVT_ID_USER_REPORT K) ->
  index event 1 = Some (EVT_TYPE_USER_GESTURE K) ->
  index event 3 = Some e3 ->
  index event 4 = Some e4 ->
  index event 5 = Some e5 ->
  GESTURE_MAX_COORDS_PAIRS_REPORT K < e5 ->
  exists r res w',
    readGestureCoords K dev (Some event) w = Some (r, w')
    /\ trace w'
       = (Call_writeReadU8UX (FTS_CMD_FRAMEBUFFER_R K) (BITS_16 K)
            (Z.lor (Z.shiftl e4 8) e3)
            (GESTURE_MAX_COORDS_PAIRS_REPORT K * 4)
            (DUMMY_FRAMEBUFFER K), res) :: trace w
    /\ (res < OK K ->
        r = res /\ gesture_coords_reported w' = ERROR_OP_NOT_ALLOW K)
    /\ (~ res < OK K ->
        r = OK K
        /\ gesture_coords_reported w' = GESTURE_MAX_COORDS_PAIRS_REPORT K)
    /\ length (gesture_coordinates_x w') = length (gesture_coordinates_x w)
    /\ length (gesture_coordinates_y w') = length (gesture_coordinates_y w)
    /\ forall i,
         0 <= i < GESTURE_MAX_COORDS_PAIRS_REPORT K ->
         i < Z.of_nat (length (gesture_coordinates_x w'))
         /\ i < Z.of_nat (length (gesture_coordinates_y w'))
         /\ GESTURE_MAX_COORDS_PAIRS_REPORT K * 2 + i * 2 + 1
            < GESTURE_MAX_COORDS_PAIRS_REPORT K * 4.
Proof.
  intros Hwf H0 H1 H3 H4 H5 Hover.
  pose proof (wf_x_length K w Hwf) as Hx.
  pose proof (wf_y_length K w Hwf) as Hy.
  rewrite (readGestureCoords_gesture_run K dev w event e3 e4 e5
             H0 H1 H3 H4 H5 (GESTURE_MAX_COORDS_PAIRS_REPORT K) _
             ltac:(destruct (Z.gtb_spec e5 (GESTURE_MAX_COORDS_PAIRS_REPORT K));
                   [reflexivity|lia])
             eq_refl).
  replace (GESTURE_MAX_COORDS_PAIRS_REPORT K * 2 * 2)
    with (GESTURE_MAX_COORDS_PAIRS_REPORT K * 4) by lia.
  set (c := Call_writeReadU8UX _ _ _ _ _).
  destruct (Z.ltb_spec (dev_result dev (trace w) c) (OK K)) as [Hres|Hres].
  - eexists _, _, _. split; [reflexivity|]. split; [reflexivity|].
    world_simpl. repeat split; try lia.
  - set (val := resize _ 0 _).
    destruct (decode_loop val (GESTURE_MAX_COORDS_PAIRS_REPORT K)
                (set_trace ((c, dev_result dev (trace w) c) :: trace w)
                   (set_gesture_coords_reported
                      (GESTURE_MAX_COORDS_PAIRS_REPORT K) w)))
      as (v & Hv & Hsame & Hlx & Hly & _).
    { world_simpl. lia. }
    { world_simpl. lia. }
    { unfold val. rewrite length_resize. lia. }
    rewrite (bind_Some _ _ _ _ _ Hv).
    world_simpl.
    eexists _, _, _. split; [reflexivity|].
    rewrite Hsame. world_simpl.
    split; [reflexivity|]. repeat split; try lia.
Qed.

Lemma readGestureCoords_over_report_witness :
  exists r res w',
    readGestureCoords fts521 (dev_const 0 payload_two_pairs)
      (Some (gesture_event 105)) (boot fts521)
    = Some (r, w')
    /\ trace w' = [(Call_writeReadU8UX 0xA6 2 0x2010 400 1, res)]
    /\ (res < 0 ->
        r = res
        /\ gesture_coords_reported w' = ERROR_OP_NOT_ALLOW fts521)
    /\ (~ res < 0 -> r = 0 /\ gesture_coords_reported w' = 100)
    /\ length (gesture_coordinates_x w') = 100%nat
    /\ length (gesture_coordinates_y w') = 100%nat
    /\ forall i,
         0 <= i < 100 ->
         i < Z.of_nat (length (gesture_coordinates_x w'))
         /\ i < Z.of_nat (length (gesture_coordinates_y w'))
         /\ 100 * 2 + i * 2 + 1 < 100 * 4.
Proof.
  apply (readGestureCoords_over_report fts521
           (dev_const 0 payload_two_pairs) (boot fts521)
           (gesture_event 105) 0x10 0x20 105).
  - solve_wf.
  - reflexivity.
  - reflexivity.
  - reflexivity.
  - reflexivity.
  - reflexivity.
  - cbn. lia.
Defined.

(** C5. On an event with the expected tags, when the bus read succeeds and
    has delivered the [count * 4] bytes asked for, [readGestureCoords]
    returns [OK] with the reported count [count] (the count byte, clamped),
    and for every [i < count] the X coordinate is the low eight bits of
    payload byte [2i] plus the low nibble of byte [2i+1] as bits 8-11, the Y
    coordinate the same from bytes [count*2+2i] and [count*2+2i+1]; the bytes
    [0x34, 0x01] decode to [0x134]. *)
Theorem readGestureCoords_decodes_pairs K dev w event e3 e4 e5 count payload :
  wf K w ->
  index event 0 = Some (EVT_ID_USER_REPORT K) ->
  index event 1 = Some (EVT_TYPE_USER_GESTURE K) ->
  index event 3 = Some e3 ->
  index event 4 = Some e4 ->
  index event 5 = Some e5 ->
  count = Z.min e5 (GESTURE_MAX_COORDS_PAIRS_REPORT K) ->
  ~ dev_result dev (trace w)
      (Call_writeReadU8UX (FTS_CMD_FRAMEBUFFER_R K) (BITS_16 K)
         (Z.lor (Z.shiftl e4 8) e3) (count * 4) (DUMMY_FRAMEBUFFER K))
    < OK K ->
  payload
  = dev_bytes dev (trace w)
      (Call_writeReadU8UX (FTS_CMD_FRAMEBUFFER_R K) (BITS_16 K)
         (Z.lor (Z.shiftl e4 8) e3) (count * 4) (DUMMY_FRAMEBUFFER K)) ->
  count * 4 <= Z.of_nat (length payload) ->
  exists w',
    readGestureCoords K dev (Some event) w = Some (OK K, w')
    /\ gesture_coords_reported w' = count
    /\ (forall i,
          0 <= i < count ->
          exists xlo xhi ylo yhi,
            index payload (2 * i) = Some xlo
            /\ index payload (2 * i + 1) = Some xhi
            /\ index payload (count * 2 + 2 * i) = Some ylo
            /\ index payload (count * 2 + 2 * i + 1) = Some yhi
            /\ index (gesture_coordinates_x w') i
               = Some (xlo mod 2 ^ 8 + 2 ^ 8 * (xhi mod 2 ^ 4))
            /\ index (gesture_coordinates_y w') i
               = Some (ylo mod 2 ^ 8 + 2 ^ 8 * (yhi mod 2 ^ 4)))
    /\ unpack12 0x34 0x01 = 0x134.
Proof.
  intros Hwf H0 H1 H3 H4 H5 Hcount Hres Hpayload Hlen.
  pose proof (wf_x_length K w Hwf) as Hx.
  pose proof (wf_y_length K w Hwf) as Hy.
  rewrite (readGestureCoords_gesture_run K dev w event e3 e4 e5
             H0 H1 H3 H4 H5 count _
             ltac:(destruct (Z.gtb_spec e5 (GESTURE_MAX_COORDS_PAIRS_REPORT K));
                   lia)
             eq_refl).
  replace (count * 2 * 2) with (count * 4) by lia.
  rewrite <- Hpayload.
  destruct (Z.ltb_spec (dev_result dev (trace w)
              (Call_writeReadU8UX (FTS_CMD_FRAMEBUFFER_R K) (BITS_16 K)
                 (Z.lor (Z.shiftl e4 8) e3) (count * 4)
                 (DUMMY_FRAMEBUFFER K))) (OK K)) as [?|_]; [contradiction|].
  set (c := Call_writeReadU8UX _ _ _ _ _) in *.
  set (val := resize _ 0 payload).
  assert (Hval : forall j, 0 <= j < count * 4 ->
                           index val j = index payload j).
  { intros j Hj. unfold index. destruct (j <? 0); [reflexivity|].
    apply lookup_resize; lia. }
  destruct (decode_loop val count
              (set_trace ((c, dev_result dev (trace w) c) :: trace w)
                 (set_gesture_coords_reported count w)))
    as (v & Hv & Hsame & _ & _ & Hdone).
  { world_simpl. lia. }
  { world_simpl. lia. }
  { unfold val. rewrite length_resize. lia. }
  rewrite (bind_Some _ _ _ _ _ Hv).
  exists v. split; [reflexivity|]. split; [|split; [|reflexivity]].
  - rewrite Hsame. reflexivity.
  - intros i Hi.
    destruct (Hdone i) as (xlo & xhi & ylo & yhi & A & B & C & D & E & F);
      [lia|].
    exists xlo, xhi, ylo, yhi.
    rewrite Hval in A, B, C, D by lia.
    rewrite unpack12_value in E, F.
    replace (2 * i) with (i * 2) by lia.
    repeat split; assumption.
Qed.

Lemma readGestureCoords_decodes_pairs_witness :
  exists w',
    readGestureCoords fts521 (dev_const 0 payload_two_pairs)
      (Some (gesture_event 2)) (boot fts521)
    = Some (OK fts521, w')
    /\ gesture_coords_reported w' = 2
    /\ (forall i,
          0 <= i < 2 ->
          exists xlo xhi ylo yhi,
            index payload_two_pairs (2 * i) = Some xlo
            /\ index payload_two_pairs (2 * i + 1) = Some xhi
            /\ index payload_two_pairs (2 * 2 + 2 * i) = Some ylo
            /\ index payload_two_pairs (2 * 2 + 2 * i + 1) = Some yhi
            /\ index (gesture_coordinates_x w') i
               = Some (xlo mod 2 ^ 8 + 2 ^ 8 * (xhi mod 2 ^ 4))
            /\ index (gesture_coordinates_y w') i
               = Some (ylo mod 2 ^ 8 + 2 ^ 8 * (yhi mod 2 ^ 4)))
    /\ unpack12 0x34 0x01 = 0x134.
Proof.
  apply (readGestureCoords_decodes_pairs fts521
           (dev_const 0 payload_two_pairs) (boot fts521)
           (gesture_event 2) 0x10 0x20 2 2 payload_two_pairs).
  - solve_wf.
  - reflexivity.
  - reflexivity.
  - reflexivity.
  - reflexivity.
  - reflexivity.
  - reflexivity.
  - cbn. lia.
  - reflexivity.
  - cbn. lia.
Defined.

(** The decoded arrays of the two-pair gesture. *)
Example readGestureCoords_two_pairs :
  firstn 2 (gesture_coordinates_x world_after_gesture) = [0x134; 0x256]
  /\ firstn 2 (gesture_coordinates_y world_after_gesture) = [0x378; 0x49A]
  /\ gesture_coords_reported world_after_gesture = 2.
Proof. repeat split. Qed.

(** ** What a computation leaves alone *)

Lemma bind_inv {A B} (m : M A) (k : A -> M B) w b w' :
  bind m k w = Some (b, w') ->
  exists a v, m w = Some (a, v) /\ k a v = Some (b, w').
Proof.
  unfold bind. destruct (m w) as [[a v]|]; [|discriminate].
  intros H. exists a, v. split; [reflexivity|exact H].
Qed.

Section Keeps.

Context {B : Type} (f : world -> B).

Lemma keeps_ret {A} (a : A) : keeps f (ret a).
Proof. intros w a' w' H. inversion H. reflexivity. Qed.

Lemma keeps_bind {A C} (m : M A) (k : A -> M C) :
  keeps f m -> (forall a, keeps f (k a)) -> keeps f (bind m k).
Proof.
  intros Hm Hk w c w' H.
  apply bind_inv in H as (a & v & H1 & H2).
  rewrite (Hk a v c w' H2). exact (Hm w a v H1).
Qed.

Lemma keeps_reads {A} (g : world -> A) : keeps f (reads g).
Proof. intros w a w' H. inversion H. reflexivity. Qed.

Lemma keeps_lift {A} (o : option A) : keeps f (lift o).
Proof. intros w a w' H. unfold lift in H. destruct o; inversion H. reflexivity. Qed.

Lemma keeps_undefined {A} : keeps f (@undefined A).
Proof. intros w a w' H. discriminate. Qed.

Lemma keeps_modify (g : world -> world) :
  (forall w, f (g w) = f w) -> keeps f (modify g).
Proof. intros Hg w a w' H. inversion H. apply Hg. Qed.

Lemma keeps_for_loop body n :
  (forall i, keeps f (body i)) ->
  forall from, keeps f (for_loop from n body).
Proof.
  intros Hbody. induction n as [|n IH]; intros from; cbn [for_loop].
  - apply keeps_ret.
  - apply keeps_bind; [apply Hbody|]. intros _. apply IH.
Qed.

Lemma keeps_for_lt bound body :
  (forall i, keeps f (body i)) -> keeps f (for_lt bound body).
Proof. intros Hbody. apply keeps_for_loop. exact Hbody. Qed.

Lemma keeps_invoke dev c :
  (forall t w, f (set_trace t w) = f w) -> keeps f (invoke dev c).
Proof. intros Hf w a w' H. inversion H. apply Hf. Qed.

Lemma keeps_fts_writeReadU8UX dev cmd addrSize address capacity len dummy :
  (forall t w, f (set_trace t w) = f w) ->
  keeps f (fts_writeReadU8UX dev cmd addrSize address capacity len dummy).
Proof. intros Hf w a w' H. inversion H. apply Hf. Qed.

End Keeps.

(** Decomposes a goal [keeps f m] along the structure of [m]. *)
Ltac keeps_step :=
  match goal with
  | |- keeps _ (ret _) => apply keeps_ret
  | |- keeps _ (bind _ _) => apply keeps_bind; [|intros ?]
  | |- keeps _ (reads _) => apply keeps_reads
  | |- keeps _ (lift _) => apply keeps_lift
  | |- keeps _ undefined => apply keeps_undefined
  | |- keeps _ (modify _) => apply keeps_modify; intros; reflexivity
  | |- keeps _ (for_lt _ _) => apply keeps_for_lt; intros ?
  | |- keeps _ (invoke _ _) => apply keeps_invoke; intros; reflexivity
  | |- keeps _ (fts_writeReadU8UX _ _ _ _ _ _ _) =>
      apply keeps_fts_writeReadU8UX; intros; reflexivity
  | |- keeps _ (if negb (is_null _) then _ else _) =>
      progress cbn [is_null negb]
  | |- keeps _ (if ?c then _ else _) => destruct c
  | |- keeps _ (match ?x with _ => _ end) => destruct x
  | |- keeps _ _ =>
      progress unfold load_gesture_mask, store_gesture_mask,
        store_gesture_coordinates_x, store_gesture_coordinates_y, deref,
        enable_byte, disable_byte, decode_pair, setFeatures, setScanMode,
        fts_disableInterrupt, fts_enableInterrupt, enterGestureMode_END,
        enterGestureMode_scan
  end.

Ltac keeps_all := repeat keeps_step.

Lemma enable_loop_keeps_flag mask size :
  keeps refreshGestureMask (for_lt size (enable_byte mask)).
Proof. keeps_all. Qed.

Lemma enable_loop_keeps_trace mask size :
  keeps trace (for_lt size (enable_byte mask)).
Proof. keeps_all. Qed.

Lemma disable_loop_keeps_flag mask size :
  keeps refreshGestureMask (for_lt size (disable_byte mask)).
Proof. keeps_all. Qed.

Lemma disable_loop_keeps_trace mask size :
  keeps trace (for_lt size (disable_byte mask)).
Proof. keeps_all. Qed.

Lemma enableGesture_keeps_flag K dev mask size :
  keeps refreshGestureMask (enableGesture K dev mask size).
Proof. unfold enableGesture. keeps_all. Qed.

Lemma disableGesture_keeps_flag K dev mask size :
  keeps refreshGestureMask (disableGesture K dev mask size).
Proof. unfold disableGesture. keeps_all. Qed.

Lemma enterGestureMode_keeps_mask K dev reload :
  keeps gesture_mask (enterGestureMode K dev reload).
Proof. unfold enterGestureMode, enableGesture. keeps_all. Qed.

Lemma isAnyGestureActive_scan_keeps {B} (f : world -> B) K rounds :
  forall res, keeps f (isAnyGestureActive_scan K rounds res).
Proof.
  induction rounds as [|rounds IH]; intros res; cbn [isAnyGestureActive_scan].
  - keeps_all.
  - keeps_step; [|keeps_all]. keeps_step; [keeps_all|].
    keeps_step; [apply IH|keeps_all].
Qed.

Lemma isAnyGestureActive_keeps {B} (f : world -> B) K :
  keeps f (isAnyGestureActive K).
Proof.
  unfold isAnyGestureActive.
  keeps_step; [apply isAnyGestureActive_scan_keeps|]. keeps_all.
Qed.

Lemma readGestureCoords_keeps_mask K dev event :
  keeps gesture_mask (readGestureCoords K dev event).
Proof. unfold readGestureCoords. keeps_all. Qed.

Lemma readGestureCoords_keeps_flag K dev event :
  keeps refreshGestureMask (readGestureCoords K dev event).
Proof. unfold readGestureCoords. keeps_all. Qed.

(** ** The refresh flag *)

(** [updateGestureMask] either refuses and changes nothing, or returns [OK]
    with the flag set. *)
Lemma updateGestureMask_outcome K mask size en w r w' :
  updateGestureMask K mask size en w = Some (r, w') ->
  (r = ERROR_OP_NOT_ALLOW K /\ w' = w)
  \/ (r = OK K /\ refreshGestureMask w' = 1).
Proof.
  unfold updateGestureMask. intros H.
  destruct (negb (is_null mask)); [|inversion H; auto].
  destruct (size <=? GESTURE_MASK_SIZE K); [|inversion H; auto].
  destruct (en =? FEAT_ENABLE K).
  - apply bind_inv in H as (? & v & _ & H). inversion H. auto.
  - destruct (en =? FEAT_DISABLE K); [|inversion H; auto].
    apply bind_inv in H as (? & v & _ & H). inversion H. auto.
Qed.

(** [enableGesture] either refuses and changes nothing, or hands the mask
    as it then is to [setFeatures]. *)
Lemma enableGesture_outcome K dev mask size w r w' :
  enableGesture K dev mask size w = Some (r, w') ->
  (r = ERROR_OP_NOT_ALLOW K /\ w' = w)
  \/ exists res,
      trace w'
      = (Call_setFeatures (FEAT_SEL_GESTURE K) (gesture_mask w')
           (GESTURE_MASK_SIZE K), res) :: trace w
      /\ (res < OK K -> r = res)
      /\ (~ res < OK K -> r = OK K).
Proof.
  unfold enableGesture. intros H.
  destruct (size <=? GESTURE_MASK_SIZE K); [|inversion H; auto].
  apply bind_inv in H as ([] & v & Hloop & H).
  assert (Hkeeps : keeps trace (if negb (is_null mask)
                                then for_lt size (enable_byte mask)
                                else ret tt)) by keeps_all.
  pose proof (Hkeeps w tt v Hloop) as Htrace.
  right. revert H.
  unfold setFeatures, invoke, bind, reads, ret. cbv beta iota zeta.
  match goal with
  | |- context [?c <? OK K] => destruct (Z.ltb_spec c (OK K))
  end; intros Hrun; inversion Hrun; subst; world_simpl; rewrite Htrace in *;
    eexists; (split; [reflexivity|]); split; intros; try reflexivity; lia.
Qed.

(** [disableGesture] either leaves the mask as it is, or hands the mask as
    it then is to [setFeatures]. *)
Lemma disableGesture_outcome K dev mask size w r w' :
  disableGesture K dev mask size w = Some (r, w') ->
  gesture_mask w' = gesture_mask w
  \/ exists res,
      trace w'
      = (Call_setFeatures (FEAT_SEL_GESTURE K) (gesture_mask w')
           (GESTURE_MASK_SIZE K), res) :: trace w
      /\ (res < OK K -> r = res)
      /\ (~ res < OK K -> r = OK K).
Proof.
  unfold disableGesture. intros H.
  destruct (size <=? GESTURE_MASK_SIZE K); [|inversion H; auto].
  destruct mask as [bs|]; cbn [is_null negb] in H.
  - right.
    apply bind_inv in H as (pointer & v & Hloop & H).
    apply bind_inv in Hloop as ([] & u & Hloop & Hreads).
    inversion Hreads; subst; clear Hreads.
    pose proof (disable_loop_keeps_trace (Some bs) size w tt v Hloop)
      as Htrace.
    revert H.
    unfold setFeatures, invoke, bind, ret. cbv beta iota zeta.
    match goal with
    | |- context [?c <? OK K] => destruct (Z.ltb_spec c (OK K))
    end; intros Hrun; inversion Hrun; subst; world_simpl; rewrite Htrace in *;
      eexists; (split; [reflexivity|]); split; intros; try reflexivity; lia.
  - left. revert H.
    unfold setFeatures, invoke, bind, ret. cbv beta iota zeta.
    match goal with
    | |- context [?c <? OK K] => destruct (c <? OK K)
    end; intros H; inversion H; reflexivity.
Qed.

(** [enterGestureMode] leaves the flag as it is or clears it, and clears it
    only on a run that made a successful [setFeatures] call with the mask. *)
Lemma enterGestureMode_flag K dev reload w :
  0 <= GESTURE_MASK_SIZE K ->
  exists r w',
    enterGestureMode K dev reload w = Some (r, w')
    /\ (refreshGestureMask w' = refreshGestureMask w
        \/ (refreshGestureMask w' = 0
            /\ exists new res,
                trace w' = new ++ trace w
                /\ In (Call_setFeatures (FEAT_SEL_GESTURE K) (gesture_mask w)
                         (GESTURE_MASK_SIZE K), res) new
                /\ ~ res < OK K)).
Proof.
  intros HK.
  unfold enterGestureMode, fts_disableInterrupt, invoke, bind, reads, modify,
    ret.
  cbv beta iota zeta.
  destruct (Z.ltb_spec (dev_result dev (trace w) Call_disableInterrupt)
              (OK K)).
  { eexists _, _. split; [reflexivity|]. left. reflexivity. }
  destruct ((reload =? 1) || (refreshGestureMask _ =? 1));
    repeat first
      [ rewrite enableGesture_NULL_run
      | rewrite enterGestureMode_scan_run
      | rewrite enterGestureMode_END_run
      | progress cbv beta iota zeta
      | progress world_simpl
      | split_path ];
    try lia.
  all: eexists _, _; (split; [reflexivity|]).
  all: first
         [ left; reflexivity
         | right; split; [reflexivity|];
           eexists _, _; split; [world_simpl; new_calls w|];
           split; [cbn; eauto 6|]; lia ].
Qed.

(** C8, as the code has it. For every entry point that returns from [w]
    with [w']:
    - when the mask has changed, either the entry point is
      [updateGestureMask] and the refresh flag is set afterwards, or it is
      [enableGesture] or [disableGesture] and the changed mask is what the
      call has just handed to [setFeatures], whose failure is the value
      returned;
    - when the flag went from non-zero to 0, the entry point is
      [enterGestureMode], the mask is unchanged and the run contains a
      [setFeatures] call with that mask that did not fail. *)
Theorem refresh_flag_discipline K dev op w r w' :
  0 <= GESTURE_MASK_SIZE K ->
  run K dev op w = Some (r, w') ->
  (gesture_mask w' <> gesture_mask w ->
   (exists mask size en,
       op = Op_updateGestureMask mask size en
       /\ refreshGestureMask w' = 1)
   \/ (exists mask size res,
          (op = Op_enableGesture mask size
           \/ op = Op_disableGesture mask size)
          /\ trace w'
             = (Call_setFeatures (FEAT_SEL_GESTURE K) (gesture_mask w')
                  (GESTURE_MASK_SIZE K), res) :: trace w
          /\ (res < OK K -> r = res)
          /\ (~ res < OK K -> r = OK K)))
  /\ (refreshGestureMask w <> 0 ->
      refreshGestureMask w' = 0 ->
      gesture_mask w' = gesture_mask w
      /\ exists reload new res,
          op = Op_enterGestureMode reload
          /\ trace w' = new ++ trace w
          /\ In (Call_setFeatures (FEAT_SEL_GESTURE K) (gesture_mask w)
                   (GESTURE_MASK_SIZE K), res) new
          /\ ~ res < OK K).
Proof.
  intros HK Hrun.
  destruct op as [mask size en|mask size|mask size|reload| |event|];
    cbn [run] in Hrun.
  - (* updateGestureMask *)
    apply updateGestureMask_outcome in Hrun as [[_ ->]|[_ Hflag]].
    + split; intros; congruence.
    + split; intros; [|lia]. left. eauto.
  - (* enableGesture *)
    pose proof (enableGesture_keeps_flag K dev mask size w r w' Hrun) as Hflag.
    apply enableGesture_outcome in Hrun as [[_ ->]|(res & Hpush)].
    + split; intros; congruence.
    + split; intros; [|congruence]. right. exists mask, size, res. auto.
  - (* disableGesture *)
    pose proof (disableGesture_keeps_flag K dev mask size w r w' Hrun)
      as Hflag.
    apply disableGesture_outcome in Hrun as [Hmask|(res & Hpush)].
    + split; intros; congruence.
    + split; intros; [|congruence]. right. exists mask, size, res. auto.
  - (* enterGestureMode *)
    pose proof (enterGestureMode_keeps_mask K dev reload w r w' Hrun) as Hmask.
    destruct (enterGestureMode_flag K dev reload w HK)
      as (r0 & w0 & Hrun0 & Hflag).
    rewrite Hrun in Hrun0. inversion Hrun0; subst r0 w0; clear Hrun0.
    split; [contradiction|].
    intros Hset Hclear. split; [exact Hmask|].
    destruct Hflag as [Hsame|(_ & new & res & Hnew & Hin & Hok)];
      [congruence|].
    exists reload, new, res. auto.
  - (* isAnyGestureActive *)
    pose proof (isAnyGestureActive_keeps gesture_mask K w r w' Hrun).
    pose proof (isAnyGestureActive_keeps refreshGestureMask K w r w' Hrun).
    split; intros; congruence.
  - (* readGestureCoords *)
    pose proof (readGestureCoords_keeps_mask K dev event w r w' Hrun).
    pose proof (readGestureCoords_keeps_flag K dev event w r w' Hrun).
    split; intros; congruence.
  - (* getGestureCoords *)
    inversion Hrun; subst. split; intros; congruence.
Qed.

Lemma refresh_flag_discipline_witness :
  refreshGestureMask world_to_refresh = 1
  /\ refreshGestureMask
       (exec (run fts521 (dev_const 0 []) (Op_enterGestureMode 0))
          world_to_refresh) = 0
  /\ gesture_mask
       (exec (run fts521 (dev_const 0 []) (Op_enterGestureMode 0))
          world_to_refresh)
     = gesture_mask world_to_refresh
  /\ exists reload new res,
      Op_enterGestureMode 0 = Op_enterGestureMode reload
      /\ trace (exec (run fts521 (dev_const 0 []) (Op_enterGestureMode 0))
                  world_to_refresh)
         = new ++ trace world_to_refresh
      /\ In (Call_setFeatures (FEAT_SEL_GESTURE fts521)
               (gesture_mask world_to_refresh)
               (GESTURE_MASK_SIZE fts521), res) new
      /\ ~ res < OK fts521.
Proof.
  split; [reflexivity|]. split; [reflexivity|].
  apply (refresh_flag_discipline fts521 (dev_const 0 [])
           (Op_enterGestureMode 0) world_to_refresh 0
           (exec (run fts521 (dev_const 0 []) (Op_enterGestureMode 0))
              world_to_refresh)).
  - cbn. lia.
  - reflexivity.
  - cbn. lia.
  - reflexivity.
Defined.

(** C8 fails as worded: [enableGesture] with one byte to arm, on a device
    whose [setFeatures] fails, returns the failure with the mask changed and
    the refresh flag still 0. *)
Lemma enableGesture_failed_push_flag_clear :
  run fts521 (dev_const (-1) []) (Op_enableGesture (Some [0x01]) 1)
    (boot fts521)
  = Some (-1, world_after_failed_enable)
  /\ gesture_mask (boot fts521) = [0; 0; 0; 0]
  /\ gesture_mask world_after_failed_enable = [1; 0; 0; 0]
  /\ refreshGestureMask world_after_failed_enable = 0
  /\ ~ refresh_flag_kept (boot fts521) world_after_failed_enable.
Proof.
  repeat split. intros Hkept.
  assert (H : refreshGestureMask world_after_failed_enable = 1).
  { apply Hkept. vm_compute. discriminate. }
  vm_compute in H. discriminate.
Qed.

(** ** Error codes *)

(** C9, as the code has it. A null argument, an oversized size and an
    unrecognised selector make [updateGestureMask] return the same code,
    [ERROR_OP_NOT_ALLOW], and a header mismatch makes [readGestureCoords]
    return that code too; none of them changes the world. *)
Theorem failures_return_ERROR_OP_NOT_ALLOW
    K dev w delta size oversize en en' selector event :
  GESTURE_MASK_SIZE K < oversize ->
  size <= GESTURE_MASK_SIZE K ->
  selector <> FEAT_ENABLE K ->
  selector <> FEAT_DISABLE K ->
  6 <= Z.of_nat (length event) ->
  index event 0 <> Some (EVT_ID_USER_REPORT K)
  \/ index event 1 <> Some (EVT_TYPE_USER_GESTURE K) ->
  updateGestureMask K None size en w = Some (ERROR_OP_NOT_ALLOW K, w)
  /\ updateGestureMask K (Some delta) oversize en' w
     = Some (ERROR_OP_NOT_ALLOW K, w)
  /\ updateGestureMask K (Some delta) size selector w
     = Some (ERROR_OP_NOT_ALLOW K, w)
  /\ readGestureCoords K dev (Some event) w
     = Some (ERROR_OP_NOT_ALLOW K, w).
Proof.
  intros Hover Hsize Hen Hdis Hlen Htag.
  split; [reflexivity|]. split; [|split].
  - unfold updateGestureMask. cbn [is_null negb].
    destruct (Z.leb_spec oversize (GESTURE_MASK_SIZE K)); [lia|reflexivity].
  - unfold updateGestureMask. cbn [is_null negb].
    destruct (Z.leb_spec size (GESTURE_MASK_SIZE K)); [|lia].
    destruct (Z.eqb_spec selector (FEAT_ENABLE K)); [contradiction|].
    destruct (Z.eqb_spec selector (FEAT_DISABLE K)); [contradiction|].
    reflexivity.
  - destruct (index_in_range event 0) as [e0 He0]; [lia|].
    destruct (index_in_range event 1) as [e1 He1]; [lia|].
    unfold readGestureCoords, deref, bind, lift, ret.
    rewrite He0; cbv beta iota.
    destruct (Z.eqb_spec e0 (EVT_ID_USER_REPORT K)) as [->|]; [|reflexivity].
    rewrite He1; cbv beta iota.
    destruct (Z.eqb_spec e1 (EVT_TYPE_USER_GESTURE K)) as [->|];
      [|reflexivity].
    destruct Htag as [Htag|Htag]; contradiction.
Qed.

Lemma failures_return_ERROR_OP_NOT_ALLOW_witness :
  updateGestureMask fts521 None 1 1 (boot fts521)
  = Some (ERROR_OP_NOT_ALLOW fts521, boot fts521)
  /\ updateGestureMask fts521 (Some [0x01]) 5 1 (boot fts521)
     = Some (ERROR_OP_NOT_ALLOW fts521, boot fts521)
  /\ updateGestureMask fts521 (Some [0x01]) 1 7 (boot fts521)
     = Some (ERROR_OP_NOT_ALLOW fts521, boot fts521)
  /\ readGestureCoords fts521 (dev_const 0 []) (Some other_event)
       (boot fts521)
     = Some (ERROR_OP_NOT_ALLOW fts521, boot fts521).
Proof.
  apply (failures_return_ERROR_OP_NOT_ALLOW fts521 (dev_const 0 [])
           (boot fts521) [0x01] 1 5 1 1 7 other_event).
  - cbn. lia.
  - cbn. lia.
  - cbn. lia.
  - cbn. lia.
  - cbn. lia.
  - left. vm_compute. discriminate.
Defined.

(** C9 fails as worded: the codes for a null argument, an oversized size,
    an unrecognised selector and a header mismatch are one and the same. *)
Lemma failure_codes_coincide :
  code (updateGestureMask fts521 None 0 (FEAT_ENABLE fts521) (boot fts521))
  = Some (ERROR_OP_NOT_ALLOW fts521)
  /\ code (updateGestureMask fts521 (Some [0x01]) 5 (FEAT_ENABLE fts521)
             (boot fts521))
     = Some (ERROR_OP_NOT_ALLOW fts521)
  /\ code (updateGestureMask fts521 (Some [0x01]) 0 7 (boot fts521))
     = Some (ERROR_OP_NOT_ALLOW fts521)
  /\ code (readGestureCoords fts521 (dev_const 0 []) (Some other_event)
             (boot fts521))
     = Some (ERROR_OP_NOT_ALLOW fts521)
  /\ ~ distinct_failure_codes fts521 (dev_const 0 []) (boot fts521)
         [0x01] 5 7 other_event.
Proof.
  repeat split. intros (Hdiff & _). apply Hdiff. reflexivity.
Qed.

(** * Further properties of the functions *)

(** ** isAnyGestureActive *)

(** The scanning loop stops at the first non-zero byte, or at the last
    byte of the mask. *)
Lemma isAnyGestureActive_scan_stops K w rounds :
  Z.of_nat (length (gesture_mask w)) = GESTURE_MASK_SIZE K ->
  forall res,
    0 <= res ->
    res + Z.of_nat rounds = GESTURE_MASK_SIZE K - 1 ->
    (forall j, 0 <= j < res -> index (gesture_mask w) j = Some 0) ->
    exists res',
      isAnyGestureActive_scan K rounds res w = Some (res', w)
      /\ res <= res' <= GESTURE_MASK_SIZE K - 1
      /\ (forall j, 0 <= j < res' -> index (gesture_mask w) j = Some 0)
      /\ (res' < GESTURE_MASK_SIZE K - 1 ->
          exists g, index (gesture_mask w) res' = Some g /\ g <> 0).
Proof.
  intros Hlen. induction rounds as [|rounds IH]; intros res Hres Hsum Hzero;
    cbn [isAnyGestureActive_scan].
  - exists res. repeat split; try lia; auto.
  - destruct (Z.ltb_spec res (GESTURE_MASK_SIZE K - 1)); [|lia].
    destruct (index_in_range (gesture_mask w) res) as [g Hg]; [lia|].
    unfold load_gesture_mask, bind, reads, lift. rewrite Hg. cbv beta iota.
    destruct (Z.eqb_spec g 0) as [->|Hne].
    + destruct (IH (res + 1)) as (res' & Hrun & Hrange & Hz & Hnz);
        [lia|lia| |].
      { intros j Hj. destruct (Z.eq_dec j res) as [->|]; [exact Hg|].
        apply Hzero. lia. }
      exists res'. repeat split; try lia; auto.
    + exists res. repeat split; try lia; auto.
      intros _. exists g. auto.
Qed.

(** The two answers of [isAnyGestureActive]. *)
Lemma isAnyGestureActive_cases K w :
  wf K w ->
  1 <= GESTURE_MASK_SIZE K ->
  (Forall (fun g => g = 0) (gesture_mask w) ->
   isAnyGestureActive K w = Some (FEAT_DISABLE K, w))
  /\ (Exists (fun g => g <> 0) (gesture_mask w) ->
      isAnyGestureActive K w = Some (FEAT_ENABLE K, w)).
Proof.
  intros Hwf HK. pose proof (wf_mask_length K w Hwf) as Hlen.
  destruct (isAnyGestureActive_scan_stops K w
              (Z.to_nat (GESTURE_MASK_SIZE K - 1)) Hlen 0)
    as (res & Hrun & Hrange & Hz & Hnz); [lia|lia|intros; lia|].
  destruct (index_in_range (gesture_mask w) res) as [g Hg]; [lia|].
  assert (Heval : isAnyGestureActive K w
                  = Some (if negb (g =? 0) then FEAT_ENABLE K
                          else FEAT_DISABLE K, w)).
  { unfold isAnyGestureActive. rewrite (bind_Some _ _ _ _ _ Hrun).
    unfold load_gesture_mask, bind, reads, lift. rewrite Hg. cbv beta iota.
    destruct (negb (g =? 0)); reflexivity. }
  rewrite Heval. split.
  - intros Hall. apply index_Some in Hg as [_ Hg].
    rewrite (Forall_lookup_1 _ _ _ _ Hall Hg). reflexivity.
  - intros Hsome. destruct (Z.eqb_spec g 0) as [->|]; [|reflexivity].
    exfalso. apply Exists_exists in Hsome as (x & Hin & Hx).
    apply list_elem_of_lookup in Hin as [j Hj].
    assert (Hjlen : Z.of_nat j < GESTURE_MASK_SIZE K).
    { apply lookup_lt_Some in Hj. lia. }
    assert (Hlast : res = GESTURE_MASK_SIZE K - 1).
    { destruct (Z.eq_dec res (GESTURE_MASK_SIZE K - 1)); [assumption|].
      destruct Hnz as (g' & Hg' & Hne); [lia|]. congruence. }
    assert (Hidx : index (gesture_mask w) (Z.of_nat j) = Some 0).
    { destruct (Z.eq_dec (Z.of_nat j) res) as [->|]; [exact Hg|].
      apply Hz. lia. }
    apply index_Some in Hidx as [_ Hidx]. rewrite Nat2Z.id in Hidx.
    congruence.
Qed.

(** X1. With a mask of at least one byte, [isAnyGestureActive] changes
    nothing and returns [FEAT_DISABLE] when every byte of the mask is zero,
    [FEAT_ENABLE] when some byte is not. *)
Theorem isAnyGestureActive_decides K w :
  wf K w ->
  1 <= GESTURE_MASK_SIZE K ->
  (Forall (fun g => g = 0) (gesture_mask w) ->
   isAnyGestureActive K w = Some (FEAT_DISABLE K, w))
  /\ (Exists (fun g => g <> 0) (gesture_mask w) ->
      isAnyGestureActive K w = Some (FEAT_ENABLE K, w)).
Proof. exact (isAnyGestureActive_cases K w). Qed.

Lemma isAnyGestureActive_decides_witness :
  (Forall (fun g => g = 0) (gesture_mask world_armed) ->
   isAnyGestureActive fts521 world_armed
   = Some (FEAT_DISABLE fts521, world_armed))
  /\ (Exists (fun g => g <> 0) (gesture_mask world_armed) ->
      isAnyGestureActive fts521 world_armed
      = Some (FEAT_ENABLE fts521, world_armed)).
Proof.
  apply (isAnyGestureActive_decides fts521 world_armed).
  - solve_wf.
  - cbn. lia.
Defined.

(** ** updateGestureMask, once more *)

Lemma updateGestureMask_enable_run K w delta size :
  Z.of_nat (length (gesture_mask w)) = GESTURE_MASK_SIZE K ->
  size <= GESTURE_MASK_SIZE K ->
  size <= Z.of_nat (length delta) ->
  exists v,
    mask_after delta Z.lor w (Z.max 0 size) v
    /\ updateGestureMask K (Some delta) size (FEAT_ENABLE K) w
       = Some (OK K, set_refreshGestureMask 1 v).
Proof.
  intros Hlen Hsize Hdelta.
  destruct (enable_loop delta w size) as (v & Hv & Hafter); [lia|lia|].
  exists v. split; [exact Hafter|].
  unfold updateGestureMask. cbn [is_null negb].
  destruct (Z.leb_spec size (GESTURE_MASK_SIZE K)); [|lia].
  rewrite Z.eqb_refl, (bind_Some _ _ _ _ _ Hv). reflexivity.
Qed.

Lemma updateGestureMask_disable_run K w delta size :
  FEAT_DISABLE K <> FEAT_ENABLE K ->
  Z.of_nat (length (gesture_mask w)) = GESTURE_MASK_SIZE K ->
  size <= GESTURE_MASK_SIZE K ->
  size <= Z.of_nat (length delta) ->
  exists v,
    mask_after delta (fun g d => Z.land (to_u8 (Z.lxor g d)) g) w
      (Z.max 0 size) v
    /\ updateGestureMask K (Some delta) size (FEAT_DISABLE K) w
       = Some (OK K, set_refreshGestureMask 1 v).
Proof.
  intros Hsel Hlen Hsize Hdelta.
  destruct (disable_loop delta w size) as (v & Hv & Hafter); [lia|lia|].
  exists v. split; [exact Hafter|].
  unfold updateGestureMask. cbn [is_null negb].
  destruct (Z.leb_spec size (GESTURE_MASK_SIZE K)); [|lia].
  destruct (Z.eqb_spec (FEAT_DISABLE K) (FEAT_ENABLE K)); [contradiction|].
  rewrite Z.eqb_refl, (bind_Some _ _ _ _ _ Hv). reflexivity.
Qed.

(** Byte [j] of the mask after a loop over the bytes below [i]. *)
Lemma mask_after_byte bs f w0 i w (j : nat) :
  mask_after bs f w0 i w ->
  i <= Z.of_nat (length bs) ->
  gesture_mask w !! j
  = if Z.of_nat j <? i
    then (fun g => to_u8 (f g (default 0 (bs !! j))))
           <$> (gesture_mask w0 !! j)
    else gesture_mask w0 !! j.
Proof.
  intros (_ & Hlen & Hlow & Hhigh) Hbs.
  destruct (Z.ltb_spec (Z.of_nat j) i) as [Hlt|Hge]; [|apply Hhigh; lia].
  destruct (lookup_lt_is_Some_2 bs j) as [d Hd]; [lia|].
  rewrite Hd. cbn [default].
  destruct (gesture_mask w0 !! j) as [g|] eqn:Hg; cbn.
  - apply (Hlow j g d); assumption.
  - apply lookup_ge_None. apply lookup_ge_None in Hg. lia.
Qed.

(** A loop that leaves every byte of the mask as it was leaves the world
    as it was. *)
Lemma mask_after_same bs f w0 i w :
  mask_after bs f w0 i w ->
  gesture_mask w = gesture_mask w0 ->
  w = w0.
Proof.
  intros (Hw & _) Hmask. rewrite Hw, Hmask. now destruct w0.
Qed.

Lemma enable_twice_byte g d :
  to_u8 (Z.lor (to_u8 (Z.lor g d)) d) = to_u8 (Z.lor g d).
Proof.
  apply Z.bits_inj'. intros k Hk.
  destruct (Z.lt_ge_cases k 8).
  - rewrite !to_u8_testbit, !Z.lor_spec, to_u8_testbit, Z.lor_spec by lia.
    destruct (Z.testbit g k), (Z.testbit d k); reflexivity.
  - rewrite !to_u8_testbit_high by lia. reflexivity.
Qed.

Lemma disable_twice_byte g d :
  to_u8 (Z.land
           (to_u8 (Z.lxor (to_u8 (Z.land (to_u8 (Z.lxor g d)) g)) d))
           (to_u8 (Z.land (to_u8 (Z.lxor g d)) g)))
  = to_u8 (Z.land (to_u8 (Z.lxor g d)) g).
Proof.
  apply Z.bits_inj'. intros k Hk.
  destruct (Z.lt_ge_cases k 8).
  - repeat first [ rewrite to_u8_testbit by lia
                 | rewrite Z.land_spec
                 | rewrite Z.lxor_spec ].
    destruct (Z.testbit g k), (Z.testbit d k); reflexivity.
  - rewrite !to_u8_testbit_high by lia. reflexivity.
Qed.

Lemma enable_disable_byte g d :
  to_u8 (Z.land (to_u8 (Z.lxor (to_u8 (Z.lor g d)) d))
           (to_u8 (Z.lor g d)))
  = to_u8 (Z.land (to_u8 (Z.lxor g d)) g).
Proof.
  apply Z.bits_inj'. intros k Hk.
  destruct (Z.lt_ge_cases k 8).
  - repeat first [ rewrite to_u8_testbit by lia
                 | rewrite Z.land_spec
                 | rewrite Z.lxor_spec
                 | rewrite Z.lor_spec ].
    destruct (Z.testbit g k), (Z.testbit d k); reflexivity.
  - rewrite !to_u8_testbit_high by lia. reflexivity.
Qed.

(** X2. Enabling, or disabling, the same bytes a second time changes
    nothing: the second call returns [OK] and leaves the world the first
    call left. *)
Theorem updateGestureMask_idempotent K w delta size :
  wf K w ->
  FEAT_DISABLE K <> FEAT_ENABLE K ->
  size <= GESTURE_MASK_SIZE K ->
  size <= Z.of_nat (length delta) ->
  (exists w1,
      updateGestureMask K (Some delta) size (FEAT_ENABLE K) w
      = Some (OK K, w1)
      /\ updateGestureMask K (Some delta) size (FEAT_ENABLE K) w1
         = Some (OK K, w1))
  /\ (exists w1,
         updateGestureMask K (Some delta) size (FEAT_DISABLE K) w
         = Some (OK K, w1)
         /\ updateGestureMask K (Some delta) size (FEAT_DISABLE K) w1
            = Some (OK K, w1)).
Proof.
  intros Hwf Hsel Hsize Hdelta.
  pose proof (wf_mask_length K w Hwf) as Hlen.
  split.
  - destruct (updateGestureMask_enable_run K w delta size)
      as (v & Hv & Hrun); try assumption.
    exists (set_refreshGestureMask 1 v). split; [exact Hrun|].
    assert (Hlenv : Z.of_nat (length (gesture_mask v)) = GESTURE_MASK_SIZE K).
    { destruct Hv as (_ & Hl & _). lia. }
    destruct (updateGestureMask_enable_run K (set_refreshGestureMask 1 v)
                delta size) as (u & Hu & Hrun'); try assumption.
    rewrite Hrun'. do 2 f_equal.
    assert (Hsame : u = set_refreshGestureMask 1 v).
    { apply (mask_after_same _ _ _ _ _ Hu). apply list_eq. intros j.
      rewrite (mask_after_byte _ _ _ _ _ j Hu) by lia. cbn.
      rewrite (mask_after_byte _ _ _ _ _ j Hv) by lia.
      destruct (Z.of_nat j <? Z.max 0 size); [|reflexivity].
      destruct (gesture_mask w !! j); cbn; [|reflexivity].
      now rewrite enable_twice_byte. }
    rewrite Hsame. reflexivity.
  - destruct (updateGestureMask_disable_run K w delta size)
      as (v & Hv & Hrun); try assumption.
    exists (set_refreshGestureMask 1 v). split; [exact Hrun|].
    assert (Hlenv : Z.of_nat (length (gesture_mask v)) = GESTURE_MASK_SIZE K).
    { destruct Hv as (_ & Hl & _). lia. }
    destruct (updateGestureMask_disable_run K (set_refreshGestureMask 1 v)
                delta size) as (u & Hu & Hrun'); try assumption.
    rewrite Hrun'. do 2 f_equal.
    assert (Hsame : u = set_refreshGestureMask 1 v).
    { apply (mask_after_same _ _ _ _ _ Hu). apply list_eq. intros j.
      rewrite (mask_after_byte _ _ _ _ _ j Hu) by lia. cbn.
      rewrite (mask_after_byte _ _ _ _ _ j Hv) by lia.
      destruct (Z.of_nat j <? Z.max 0 size); [|reflexivity].
      destruct (gesture_mask w !! j); cbn; [|reflexivity].
      now rewrite disable_twice_byte. }
    rewrite Hsame. reflexivity.
Qed.

Lemma updateGestureMask_idempotent_witness :
  (exists w1,
      updateGestureMask fts521 (Some [0x05; 0x81]) 2 (FEAT_ENABLE fts521)
        world_armed
      = Some (OK fts521, w1)
      /\ updateGestureMask fts521 (Some [0x05; 0x81]) 2 (FEAT_ENABLE fts521)
           w1
         = Some (OK fts521, w1))
  /\ (exists w1,
         updateGestureMask fts521 (Some [0x05; 0x81]) 2
           (FEAT_DISABLE fts521) world_armed
         = Some (OK fts521, w1)
         /\ updateGestureMask fts521 (Some [0x05; 0x81]) 2
              (FEAT_DISABLE fts521) w1
            = Some (OK fts521, w1)).
Proof.
  apply (updateGestureMask_idempotent fts521 world_armed [0x05; 0x81] 2).
  - solve_wf.
  - cbn. lia.
  - cbn. lia.
  - cbn. lia.
Defined.

(** X3. Disabling bytes right after enabling the same bytes leaves the
    world that disabling them alone leaves: the enabling is undone and the
    bits that were armed under the argument are cleared with it. *)
Theorem updateGestureMask_enable_then_disable K w delta size :
  wf K w ->
  FEAT_DISABLE K <> FEAT_ENABLE K ->
  size <= GESTURE_MASK_SIZE K ->
  size <= Z.of_nat (length delta) ->
  exists w1 w2,
    updateGestureMask K (Some delta) size (FEAT_ENABLE K) w = Some (OK K, w1)
    /\ updateGestureMask K (Some delta) size (FEAT_DISABLE K) w1
       = Some (OK K, w2)
    /\ updateGestureMask K (Some delta) size (FEAT_DISABLE K) w
       = Some (OK K, w2).
Proof.
  intros Hwf Hsel Hsize Hdelta.
  pose proof (wf_mask_length K w Hwf) as Hlen.
  destruct (updateGestureMask_enable_run K w delta size)
    as (v & Hv & Hrun); try assumption.
  assert (Hlenv : Z.of_nat (length (gesture_mask v)) = GESTURE_MASK_SIZE K).
  { destruct Hv as (_ & Hl & _). lia. }
  destruct (updateGestureMask_disable_run K (set_refreshGestureMask 1 v)
              delta size) as (u & Hu & Hrun1); try assumption.
  destruct (updateGestureMask_disable_run K w delta size)
    as (u' & Hu' & Hrun2); try assumption.
  exists (set_refreshGestureMask 1 v), (set_refreshGestureMask 1 u).
  split; [exact Hrun|]. split; [exact Hrun1|].
  rewrite Hrun2. do 2 f_equal.
  assert (Hmask : gesture_mask u' = gesture_mask u).
  { apply list_eq. intros j.
    rewrite (mask_after_byte _ _ _ _ _ j Hu) by lia. cbn.
    rewrite (mask_after_byte _ _ _ _ _ j Hv) by lia.
    rewrite (mask_after_byte _ _ _ _ _ j Hu') by lia.
    destruct (Z.of_nat j <? Z.max 0 size); [|reflexivity].
    destruct (gesture_mask w !! j); cbn; [|reflexivity].
    now rewrite enable_disable_byte. }
  destruct Hu as (Hu & _), Hu' as (Hu' & _), Hv as (Hv & _).
  rewrite Hu, Hu', Hmask, Hv. reflexivity.
Qed.

Lemma updateGestureMask_enable_then_disable_witness :
  exists w1 w2,
    updateGestureMask fts521 (Some [0x03; 0x04]) 2 (FEAT_ENABLE fts521)
      world_armed
    = Some (OK fts521, w1)
    /\ updateGestureMask fts521 (Some [0x03; 0x04]) 2 (FEAT_DISABLE fts521) w1
       = Some (OK fts521, w2)
    /\ updateGestureMask fts521 (Some [0x03; 0x04]) 2 (FEAT_DISABLE fts521)
         world_armed
       = Some (OK fts521, w2).
Proof.
  apply (updateGestureMask_enable_then_disable fts521 world_armed
           [0x03; 0x04] 2).
  - solve_wf.
  - cbn. lia.
  - cbn. lia.
  - cbn. lia.
Defined.

Lemma store_gesture_mask_keeps_length i v :
  keeps (fun u => length (gesture_mask u)) (store_gesture_mask i v).
Proof.
  intros u a u' H.
  unfold store_gesture_mask, bind, reads, lift, modify, store in H.
  destruct ((0 <=? i) && (i <? Z.of_nat (length (gesture_mask u))));
    inversion H.
  cbn. apply length_insert.
Qed.

Lemma mask_loops_keep_length mask size :
  keeps (fun u => length (gesture_mask u)) (for_lt size (enable_byte mask))
  /\ keeps (fun u => length (gesture_mask u))
       (for_lt size (disable_byte mask)).
Proof.
  split; apply keeps_for_lt; intros i.
  - unfold enable_byte.
    apply keeps_bind; [keeps_all|intros g].
    apply keeps_bind; [keeps_all|intros d].
    apply store_gesture_mask_keeps_length.
  - unfold disable_byte.
    apply keeps_bind; [keeps_all|intros g].
    apply keeps_bind; [keeps_all|intros d].
    apply keeps_bind; [keeps_all|intros g'].
    apply store_gesture_mask_keeps_length.
Qed.

(** X4. [updateGestureMask] works on the mask and the flag only: whatever
    its arguments, it calls no collaborator, leaves the coordinate arrays
    and the reported count as they were and keeps the size of the mask. *)
Theorem updateGestureMask_frame K mask size en w r w' :
  updateGestureMask K mask size en w = Some (r, w') ->
  trace w' = trace w
  /\ gesture_coordinates_x w' = gesture_coordinates_x w
  /\ gesture_coordinates_y w' = gesture_coordinates_y w
  /\ gesture_coords_reported w' = gesture_coords_reported w
  /\ length (gesture_mask w') = length (gesture_mask w).
Proof.
  intros Hrun.
  assert (H1 : keeps trace (updateGestureMask K mask size en))
    by (unfold updateGestureMask; keeps_all).
  assert (H2 : keeps gesture_coordinates_x (updateGestureMask K mask size en))
    by (unfold updateGestureMask; keeps_all).
  assert (H3 : keeps gesture_coordinates_y (updateGestureMask K mask size en))
    by (unfold updateGestureMask; keeps_all).
  assert (H4 : keeps gesture_coords_reported
                 (updateGestureMask K mask size en))
    by (unfold updateGestureMask; keeps_all).
  assert (H5 : keeps (fun u => length (gesture_mask u))
                 (updateGestureMask K mask size en)).
  { destruct (mask_loops_keep_length mask size) as [He Hd].
    unfold updateGestureMask.
    repeat first [ apply He | apply Hd | keeps_step ]. }
  split; [exact (H1 w r w' Hrun)|].
  split; [exact (H2 w r w' Hrun)|].
  split; [exact (H3 w r w' Hrun)|].
  split; [exact (H4 w r w' Hrun)|].
  exact (H5 w r w' Hrun).
Qed.

Lemma updateGestureMask_frame_witness :
  trace (exec (updateGestureMask fts521 (Some [0x03]) 1 1) world_after_gesture)
  = trace world_after_gesture
  /\ gesture_coordinates_x
       (exec (updateGestureMask fts521 (Some [0x03]) 1 1) world_after_gesture)
     = gesture_coordinates_x world_after_gesture
  /\ gesture_coordinates_y
       (exec (updateGestureMask fts521 (Some [0x03]) 1 1) world_after_gesture)
     = gesture_coordinates_y world_after_gesture
  /\ gesture_coords_reported
       (exec (updateGestureMask fts521 (Some [0x03]) 1 1) world_after_gesture)
     = gesture_coords_reported world_after_gesture
  /\ length (gesture_mask
               (exec (updateGestureMask fts521 (Some [0x03]) 1 1)
                  world_after_gesture))
     = length (gesture_mask world_after_gesture).
Proof.
  apply (updateGestureMask_frame fts521 (Some [0x03]) 1 1
           world_after_gesture 0).
  reflexivity.
Defined.

(** ** enableGesture and disableGesture *)

(** X5. [enableGesture] leaves the mask that [updateGestureMask] with the
    enabling selector leaves for the same arguments, and [disableGesture]
    the mask that [updateGestureMask] with the disabling selector leaves;
    each is defined exactly when the other is. *)
Theorem gesture_push_same_mask_as_update K dev mask size w :
  FEAT_DISABLE K <> FEAT_ENABLE K ->
  mask_of (enableGesture K dev mask size w)
  = mask_of (updateGestureMask K mask size (FEAT_ENABLE K) w)
  /\ mask_of (disableGesture K dev mask size w)
     = mask_of (updateGestureMask K mask size (FEAT_DISABLE K) w).
Proof.
  intros Hsel.
  unfold enableGesture, disableGesture, updateGestureMask.
  destruct (Z.eqb_spec (FEAT_DISABLE K) (FEAT_ENABLE K)); [contradiction|].
  rewrite !Z.eqb_refl.
  destruct mask as [bs|]; cbn [is_null negb];
    destruct (size <=? GESTURE_MASK_SIZE K).
  - unfold setFeatures, invoke, bind, reads, modify, ret.
    split.
    + destruct (for_lt size (enable_byte (Some bs)) w) as [[[] v]|];
        [|reflexivity].
      cbv beta iota zeta.
      match goal with
      | |- context [?c <? OK K] => destruct (c <? OK K)
      end; reflexivity.
    + destruct (for_lt size (disable_byte (Some bs)) w) as [[[] v]|];
        [|reflexivity].
      cbv beta iota zeta.
      match goal with
      | |- context [?c <? OK K] => destruct (c <? OK K)
      end; reflexivity.
  - split; reflexivity.
  - unfold setFeatures, invoke, bind, reads, modify, ret.
    cbv beta iota zeta.
    split;
      match goal with
      | |- context [?c <? OK K] => destruct (c <? OK K)
      end; reflexivity.
  - split; reflexivity.
Qed.

Lemma gesture_push_same_mask_as_update_witness :
  mask_of (enableGesture fts521 (dev_const (-1) []) (Some [0x03; 0x04]) 2
             world_armed)
  = mask_of (updateGestureMask fts521 (Some [0x03; 0x04]) 2
               (FEAT_ENABLE fts521) world_armed)
  /\ mask_of (disableGesture fts521 (dev_const (-1) []) (Some [0x03; 0x04]) 2
                world_armed)
     = mask_of (updateGestureMask fts521 (Some [0x03; 0x04]) 2
                  (FEAT_DISABLE fts521) world_armed).
Proof.
  apply (gesture_push_same_mask_as_update fts521 (dev_const (-1) [])
           (Some [0x03; 0x04]) 2 world_armed).
  cbn. lia.
Defined.

Lemma enableGesture_keeps_coords K dev mask size :
  keeps gesture_coordinates_x (enableGesture K dev mask size)
  /\ keeps gesture_coordinates_y (enableGesture K dev mask size)
  /\ keeps gesture_coords_reported (enableGesture K dev mask size).
Proof. repeat split; unfold enableGesture; keeps_all. Qed.

Lemma disableGesture_keeps_coords K dev mask size :
  keeps gesture_coordinates_x (disableGesture K dev mask size)
  /\ keeps gesture_coordinates_y (disableGesture K dev mask size)
  /\ keeps gesture_coords_reported (disableGesture K dev mask size).
Proof. repeat split; unfold disableGesture; keeps_all. Qed.

(** X6. When the size passes the test, [enableGesture], and
    [disableGesture] with a non-null argument, make exactly one
    collaborator call: [setFeatures] with the whole mask as the update left
    it and the length [GESTURE_MASK_SIZE], whatever [size] is. They return
    the code of that call when it failed and [OK] otherwise, and leave the
    refresh flag, the coordinate arrays and the reported count alone. *)
Theorem gesture_push_sends_whole_mask K dev mask size w r w' :
  size <= GESTURE_MASK_SIZE K ->
  enableGesture K dev mask size w = Some (r, w')
  \/ (mask <> None /\ disableGesture K dev mask size w = Some (r, w')) ->
  exists res,
    trace w'
    = (Call_setFeatures (FEAT_SEL_GESTURE K) (gesture_mask w')
         (GESTURE_MASK_SIZE K), res) :: trace w
    /\ r = (if res <? OK K then res else OK K)
    /\ refreshGestureMask w' = refreshGestureMask w
    /\ gesture_coordinates_x w' = gesture_coordinates_x w
    /\ gesture_coordinates_y w' = gesture_coordinates_y w
    /\ gesture_coords_reported w' = gesture_coords_reported w.
Proof.
  intros Hsize [Hrun|[Hmask Hrun]].
  - pose proof (enableGesture_keeps_flag K dev mask size w r w' Hrun) as Hf.
    destruct (enableGesture_keeps_coords K dev mask size) as (Hx & Hy & Hc).
    pose proof (Hx w r w' Hrun). pose proof (Hy w r w' Hrun).
    pose proof (Hc w r w' Hrun).
    revert Hrun. unfold enableGesture.
    destruct (Z.leb_spec size (GESTURE_MASK_SIZE K)); [|lia].
    intros Hrun. apply bind_inv in Hrun as ([] & v & Hloop & Hrun).
    assert (Hkeeps : keeps trace (if negb (is_null mask)
                                  then for_lt size (enable_byte mask)
                                  else ret tt)) by keeps_all.
    pose proof (Hkeeps w tt v Hloop) as Htrace.
    revert Hrun.
    unfold setFeatures, invoke, bind, reads, ret. cbv beta iota zeta.
    rewrite Htrace.
    exists (dev_result dev (trace w)
              (Call_setFeatures (FEAT_SEL_GESTURE K) (gesture_mask v)
                 (GESTURE_MASK_SIZE K))).
    destruct (dev_result dev (trace w)
                (Call_setFeatures (FEAT_SEL_GESTURE K) (gesture_mask v)
                   (GESTURE_MASK_SIZE K)) <? OK K);
      inversion Hrun; subst; world_simpl; rewrite ?Htrace; auto 10.
  - pose proof (disableGesture_keeps_flag K dev mask size w r w' Hrun) as Hf.
    destruct (disableGesture_keeps_coords K dev mask size) as (Hx & Hy & Hc).
    pose proof (Hx w r w' Hrun). pose proof (Hy w r w' Hrun).
    pose proof (Hc w r w' Hrun).
    destruct mask as [bs|]; [|contradiction].
    revert Hrun. unfold disableGesture. cbn [is_null negb].
    destruct (Z.leb_spec size (GESTURE_MASK_SIZE K)); [|lia].
    intros Hrun. apply bind_inv in Hrun as (pointer & v & Hloop & Hrun).
    apply bind_inv in Hloop as ([] & u & Hloop & Hreads).
    inversion Hreads; subst; clear Hreads.
    pose proof (disable_loop_keeps_trace (Some bs) size w tt v Hloop)
      as Htrace.
    revert Hrun.
    unfold setFeatures, invoke, bind, ret. cbv beta iota zeta.
    rewrite Htrace.
    exists (dev_result dev (trace w)
              (Call_setFeatures (FEAT_SEL_GESTURE K) (gesture_mask v)
                 (GESTURE_MASK_SIZE K))).
    destruct (dev_result dev (trace w)
                (Call_setFeatures (FEAT_SEL_GESTURE K) (gesture_mask v)
                   (GESTURE_MASK_SIZE K)) <? OK K);
      inversion Hrun; subst; world_simpl; rewrite ?Htrace; auto 10.
Qed.

Lemma gesture_push_sends_whole_mask_witness :
  exists res,
    trace (exec (enableGesture fts521 (dev_const 0 []) (Some [0x03]) 1)
             world_armed)
    = (Call_setFeatures (FEAT_SEL_GESTURE fts521)
         (gesture_mask
            (exec (enableGesture fts521 (dev_const 0 []) (Some [0x03]) 1)
               world_armed))
         (GESTURE_MASK_SIZE fts521), res) :: trace world_armed
    /\ 0 = (if res <? OK fts521 then res else OK fts521)
    /\ refreshGestureMask
         (exec (enableGesture fts521 (dev_const 0 []) (Some [0x03]) 1)
            world_armed)
       = refreshGestureMask world_armed
    /\ gesture_coordinates_x
         (exec (enableGesture fts521 (dev_const 0 []) (Some [0x03]) 1)
            world_armed)
       = gesture_coordinates_x world_armed
    /\ gesture_coordinates_y
         (exec (enableGesture fts521 (dev_const 0 []) (Some [0x03]) 1)
            world_armed)
       = gesture_coordinates_y world_armed
    /\ gesture_coords_reported
         (exec (enableGesture fts521 (dev_const 0 []) (Some [0x03]) 1)
            world_armed)
       = gesture_coords_reported world_armed.
Proof.
  apply (gesture_push_sends_whole_mask fts521 (dev_const 0 []) (Some [0x03]) 1
           world_armed 0).
  - cbn. lia.
  - left. reflexivity.
Defined.

(** A run of [enableGesture] that arms a bit of byte 0 while the payload
    sent has all four bytes of the mask. *)
Example enableGesture_payload_run :
  trace (exec (enableGesture fts521 (dev_const 0 []) (Some [0x03]) 1)
           world_armed)
  = [(Call_setFeatures 0x03 [0x03; 0x05; 0x00; 0x00] 4, 0)].
Proof. reflexivity. Qed.

(** X7. A size above [GESTURE_MASK_SIZE] makes [enableGesture] and
    [disableGesture] return [ERROR_OP_NOT_ALLOW] at once, null argument or
    not: no collaborator is called and nothing changes. *)
Theorem gesture_push_oversized K dev mask size w :
  GESTURE_MASK_SIZE K < size ->
  enableGesture K dev mask size w = Some (ERROR_OP_NOT_ALLOW K, w)
  /\ disableGesture K dev mask size w = Some (ERROR_OP_NOT_ALLOW K, w).
Proof.
  intros Hsize. unfold enableGesture, disableGesture.
  destruct (Z.leb_spec size (GESTURE_MASK_SIZE K)); [lia|].
  split; reflexivity.
Qed.

Lemma gesture_push_oversized_witness :
  enableGesture fts521 (dev_const 0 []) None 5 world_armed
  = Some (ERROR_OP_NOT_ALLOW fts521, world_armed)
  /\ disableGesture fts521 (dev_const 0 []) None 5 world_armed
     = Some (ERROR_OP_NOT_ALLOW fts521, world_armed).
Proof.
  apply (gesture_push_oversized fts521 (dev_const 0 []) None 5 world_armed).
  cbn. lia.
Defined.

(** What [isAnyGestureActive] answers depends on the mask only. *)
Lemma isAnyGestureActive_scan_mask_only K w1 w2 rounds :
  gesture_mask w1 = gesture_mask w2 ->
  forall res,
    code (isAnyGestureActive_scan K rounds res w1)
    = code (isAnyGestureActive_scan K rounds res w2)
    /\ (forall r u, isAnyGestureActive_scan K rounds res w1 = Some (r, u) ->
                    u = w1)
    /\ (forall r u, isAnyGestureActive_scan K rounds res w2 = Some (r, u) ->
                    u = w2).
Proof.
  intros Hmask. induction rounds as [|rounds IH]; intros res;
    cbn [isAnyGestureActive_scan].
  - repeat split; intros r u H; inversion H; reflexivity.
  - destruct (res <? GESTURE_MASK_SIZE K - 1);
      [|repeat split; intros r u H; inversion H; reflexivity].
    unfold load_gesture_mask, bind, reads, lift. rewrite Hmask.
    destruct (index (gesture_mask w2) res) as [g|]; cbv beta iota;
      [|repeat split; intros r u H; discriminate].
    destruct (g =? 0); [apply IH|].
    repeat split; intros r u H; inversion H; reflexivity.
Qed.

Lemma isAnyGestureActive_mask_only K w1 w2 :
  gesture_mask w1 = gesture_mask w2 ->
  code (isAnyGestureActive K w1) = code (isAnyGestureActive K w2).
Proof.
  intros Hmask. unfold isAnyGestureActive.
  destruct (isAnyGestureActive_scan_mask_only K w1 w2
              (Z.to_nat (GESTURE_MASK_SIZE K - 1)) Hmask 0)
    as (Hcode & H1 & H2).
  unfold bind.
  destruct (isAnyGestureActive_scan K _ 0 w1) as [[r1 u1]|] eqn:E1;
    destruct (isAnyGestureActive_scan K _ 0 w2) as [[r2 u2]|] eqn:E2;
    cbn in Hcode; try discriminate; [|reflexivity].
  inversion Hcode; subst r2.
  rewrite (H1 r1 u1 eq_refl), (H2 r1 u2 eq_refl).
  unfold load_gesture_mask, bind, reads, lift. rewrite Hmask.
  destruct (index (gesture_mask w2) r1) as [g|]; cbv beta iota;
    [|reflexivity].
  destruct (negb (g =? 0)); reflexivity.
Qed.

(** X8. [disableGesture] with a null argument sends the four zero bytes of
    a local [int] to [setFeatures] and touches nothing in the driver: the
    mask keeps its armed bits and [isAnyGestureActive] answers afterwards
    what it answered before. *)
Theorem disableGesture_NULL_keeps_mask K dev size w :
  size <= GESTURE_MASK_SIZE K ->
  exists r res w',
    disableGesture K dev None size w = Some (r, w')
    /\ w' = set_trace
              ((Call_setFeatures (FEAT_SEL_GESTURE K) [0; 0; 0; 0]
                  (GESTURE_MASK_SIZE K), res) :: trace w) w
    /\ r = (if res <? OK K then res else OK K)
    /\ gesture_mask w' = gesture_mask w
    /\ code (isAnyGestureActive K w') = code (isAnyGestureActive K w).
Proof.
  intros Hsize. unfold disableGesture. cbn [is_null negb].
  destruct (Z.leb_spec size (GESTURE_MASK_SIZE K)); [|lia].
  unfold setFeatures, invoke, bind, ret. cbv beta iota zeta.
  exists (if dev_result dev (trace w)
               (Call_setFeatures (FEAT_SEL_GESTURE K) int_zero_bytes
                  (GESTURE_MASK_SIZE K)) <? OK K
          then dev_result dev (trace w)
                 (Call_setFeatures (FEAT_SEL_GESTURE K) int_zero_bytes
                    (GESTURE_MASK_SIZE K))
          else OK K).
  eexists _, _. split; [|split; [reflexivity|]].
  - destruct (_ <? OK K); reflexivity.
  - split; [reflexivity|]. split; [reflexivity|].
    apply isAnyGestureActive_mask_only. reflexivity.
Qed.

Lemma disableGesture_NULL_keeps_mask_witness :
  exists r res w',
    disableGesture fts521 (dev_const 0 []) None 0 world_armed = Some (r, w')
    /\ w' = set_trace
              ((Call_setFeatures (FEAT_SEL_GESTURE fts521) [0; 0; 0; 0]
                  (GESTURE_MASK_SIZE fts521), res) :: trace world_armed)
              world_armed
    /\ r = (if res <? OK fts521 then res else OK fts521)
    /\ gesture_mask w' = gesture_mask world_armed
    /\ code (isAnyGestureActive fts521 w')
       = code (isAnyGestureActive fts521 world_armed).
Proof.
  apply (disableGesture_NULL_keeps_mask fts521 (dev_const 0 []) 0
           world_armed).
  cbn. lia.
Defined.

(** ** enterGestureMode, once more *)

(** Runs [enterGestureMode] along every path the comparisons allow. *)
Ltac enter_paths :=
  repeat first
    [ rewrite enableGesture_NULL_run
    | rewrite enterGestureMode_scan_run
    | rewrite enterGestureMode_END_run
    | progress cbv beta iota zeta
    | progress world_simpl
    | split_path ].

Ltac split_In H :=
  cbn in H;
  repeat match type of H with
         | _ \/ _ => destruct H as [H|H]
         | False => destruct H
         | (_, _) = (_, _) => inversion H; clear H; subst
         end.

(** X9. With [OK] zero and error codes negative, the value
    [enterGestureMode] returns tells whether a step failed: it is [OK] when
    every collaborator call it made succeeded and negative as soon as one of
    them failed, also when the failing call is the last one,
    [fts_enableInterrupt]. *)
Theorem enterGestureMode_reports_failures K dev reload w :
  OK K = 0 ->
  0 <= GESTURE_MASK_SIZE K ->
  exists r w' new,
    enterGestureMode K dev reload w = Some (r, w')
    /\ trace w' = new ++ trace w
    /\ ((forall c res, In (c, res) new -> 0 <= res) -> r = 0)
    /\ ((exists c res, In (c, res) new /\ res < 0) -> r < 0).
Proof.
  intros HOK HK.
  unfold enterGestureMode, fts_disableInterrupt, invoke, bind, reads, modify,
    ret.
  cbv beta iota zeta.
  destruct (Z.ltb_spec (dev_result dev (trace w) Call_disableInterrupt)
              (OK K)).
  { eexists _, _, [_]. split; [reflexivity|]. split; [reflexivity|].
    rewrite HOK in *. split.
    - intros Hall. exfalso.
      specialize (Hall _ _ (or_introl eq_refl)). lia.
    - intros _. rewrite Z.lor_neg. lia. }
  destruct ((reload =? 1) || (refreshGestureMask _ =? 1));
    enter_paths; try lia.
  all: eexists _, _, _; (split; [reflexivity|]).
  all: split; [world_simpl; new_calls w|].
  all: rewrite HOK in *.
  all: split;
    [ intros Hall;
      first
        [ reflexivity
        | exfalso;
          match goal with
          | Hlt : ?x < 0 |- _ =>
              let Hx := fresh in
              assert (Hx : 0 <= x) by (eapply Hall; cbn; eauto 8); lia
          end ]
    | intros (c & res & Hin & Hlt);
      first
        [ rewrite ?Z.lor_neg; lia
        | split_In Hin; lia ] ].
Qed.

Lemma enterGestureMode_reports_failures_witness :
  exists r w' new,
    enterGestureMode fts521 (dev_enable_fails (-7)) 0 world_armed
    = Some (r, w')
    /\ trace w' = new ++ trace world_armed
    /\ ((forall c res, In (c, res) new -> 0 <= res) -> r = 0)
    /\ ((exists c res, In (c, res) new /\ res < 0) -> r < 0).
Proof.
  apply (enterGestureMode_reports_failures fts521 (dev_enable_fails (-7)) 0
           world_armed).
  - reflexivity.
  - cbn. lia.
Defined.

(** A run in which only [fts_enableInterrupt] fails, with -7: the result is
    [OK | (-7 | ERROR_ENABLE_INTER)], which is -7 again. *)
Example enterGestureMode_enable_failure_run :
  code (enterGestureMode fts521 (dev_enable_fails (-7)) 0 world_armed)
  = Some (Z.lor 0 (Z.lor (-7) (ERROR_ENABLE_INTER fts521)))
  /\ Z.lor 0 (Z.lor (-7) (ERROR_ENABLE_INTER fts521)) = -7
  /\ trace (exec (enterGestureMode fts521 (dev_enable_fails (-7)) 0)
              world_armed)
     = [(Call_enableInterrupt, -7);
        (Call_setScanMode 1 0, 0);
        (Call_disableInterrupt, 0)].
Proof. repeat split. Qed.

(** X10. Once interrupts are disabled, [enterGestureMode] sends the mask
    to the firmware exactly when [reload] is 1 or the refresh flag is 1: it
    then makes one [setFeatures] call, with the whole mask as it is, and
    otherwise none, and then leaves the flag as it was. It never changes the
    mask. *)
Theorem enterGestureMode_push_condition K dev reload w :
  ~ dev_result dev (trace w) Call_disableInterrupt < OK K ->
  0 <= GESTURE_MASK_SIZE K ->
  exists r w' new,
    enterGestureMode K dev reload w = Some (r, w')
    /\ trace w' = new ++ trace w
    /\ count_calls is_setFeatures new
       = (if (reload =? 1) || (refreshGestureMask w =? 1)
          then 1%nat else 0%nat)
    /\ (forall feat payload size res,
          In (Call_setFeatures feat payload size, res) new ->
          feat = FEAT_SEL_GESTURE K
          /\ payload = gesture_mask w
          /\ size = GESTURE_MASK_SIZE K)
    /\ ((reload =? 1) || (refreshGestureMask w =? 1) = false ->
        refreshGestureMask w' = refreshGestureMask w)
    /\ gesture_mask w' = gesture_mask w.
Proof.
  intros Hdis HK.
  unfold enterGestureMode, fts_disableInterrupt, invoke, bind, reads, modify,
    ret.
  cbv beta iota zeta.
  destruct (Z.ltb_spec (dev_result dev (trace w) Call_disableInterrupt)
              (OK K)) as [?|_]; [contradiction|].
  change (refreshGestureMask w)
    with (refreshGestureMask
            (set_trace
               ((Call_disableInterrupt,
                 dev_result dev (trace w) Call_disableInterrupt) :: trace w)
               w)).
  destruct ((reload =? 1) || (refreshGestureMask _ =? 1));
    enter_paths; try lia.
  all: eexists _, _, _; (split; [reflexivity|]).
  all: split; [world_simpl; new_calls w|].
  all: split; [reflexivity|].
  all: split;
    [ intros feat payload size res Hin; split_In Hin; auto
    | split; [intros; first [reflexivity|discriminate]|reflexivity] ].
Qed.

Lemma enterGestureMode_push_condition_witness :
  exists r w' new,
    enterGestureMode fts521 (dev_const 0 []) 0 world_to_refresh
    = Some (r, w')
    /\ trace w' = new ++ trace world_to_refresh
    /\ count_calls is_setFeatures new
       = (if (0 =? 1) || (refreshGestureMask world_to_refresh =? 1)
          then 1%nat else 0%nat)
    /\ (forall feat payload size res,
          In (Call_setFeatures feat payload size, res) new ->
          feat = FEAT_SEL_GESTURE fts521
          /\ payload = gesture_mask world_to_refresh
          /\ size = GESTURE_MASK_SIZE fts521)
    /\ ((0 =? 1) || (refreshGestureMask world_to_refresh =? 1) = false ->
        refreshGestureMask w' = refreshGestureMask world_to_refresh)
    /\ gesture_mask w' = gesture_mask world_to_refresh.
Proof.
  apply (enterGestureMode_push_condition fts521 (dev_const 0 []) 0
           world_to_refresh).
  - cbn. lia.
  - cbn. lia.
Defined.

(** X11. What follows the push in [enterGestureMode]: when the
    [setFeatures] call failed, [setScanMode] is not called, the refresh flag
    stays as it was, and the code of [setFeatures] is returned if
    [fts_enableInterrupt] then succeeds; when the [setFeatures] call
    succeeded, the flag is cleared and [setScanMode] is called once. *)
Theorem enterGestureMode_after_push K dev reload w :
  ~ dev_result dev (trace w) Call_disableInterrupt < OK K ->
  exists r w' new,
    enterGestureMode K dev reload w = Some (r, w')
    /\ trace w' = new ++ trace w
    /\ (forall feat payload size res,
          In (Call_setFeatures feat payload size, res) new ->
          res < OK K ->
          count_calls is_setScanMode new = 0%nat
          /\ refreshGestureMask w' = refreshGestureMask w
          /\ (forall re, In (Call_enableInterrupt, re) new ->
                         ~ re < OK K -> r = res))
    /\ (forall feat payload size res,
          In (Call_setFeatures feat payload size, res) new ->
          ~ res < OK K ->
          count_calls is_setScanMode new = 1%nat
          /\ refreshGestureMask w' = 0).
Proof.
  intros Hdis.
  unfold enterGestureMode, fts_disableInterrupt, invoke, bind, reads, modify,
    ret.
  cbv beta iota zeta.
  destruct (Z.ltb_spec (dev_result dev (trace w) Call_disableInterrupt)
              (OK K)) as [?|_]; [contradiction|].
  change (refreshGestureMask w)
    with (refreshGestureMask
            (set_trace
               ((Call_disableInterrupt,
                 dev_result dev (trace w) Call_disableInterrupt) :: trace w)
               w)).
  destruct ((reload =? 1) || (refreshGestureMask _ =? 1));
    enter_paths; try lia.
  all: eexists _, _, _; (split; [reflexivity|]).
  all: split; [world_simpl; new_calls w|].
  all: split; intros feat payload size res Hin Hres; split_In Hin;
    try lia.
  all: repeat split; try reflexivity.
  all: try (intros re Hin Hre; split_In Hin; first [reflexivity|lia]).
Qed.

Lemma enterGestureMode_after_push_witness :
  exists r w' new,
    enterGestureMode fts521 (dev_push_fails (-9)) 1 world_to_refresh
    = Some (r, w')
    /\ trace w' = new ++ trace world_to_refresh
    /\ (forall feat payload size res,
          In (Call_setFeatures feat payload size, res) new ->
          res < OK fts521 ->
          count_calls is_setScanMode new = 0%nat
          /\ refreshGestureMask w' = refreshGestureMask world_to_refresh
          /\ (forall re, In (Call_enableInterrupt, re) new ->
                         ~ re < OK fts521 -> r = res))
    /\ (forall feat payload size res,
          In (Call_setFeatures feat payload size, res) new ->
          ~ res < OK fts521 ->
          count_calls is_setScanMode new = 1%nat
          /\ refreshGestureMask w' = 0).
Proof.
  apply (enterGestureMode_after_push fts521 (dev_push_fails (-9)) 1
           world_to_refresh).
  cbn. lia.
Defined.

(** A run in which only [setFeatures] fails, with -9. *)
Example enterGestureMode_push_failure_run :
  code (enterGestureMode fts521 (dev_push_fails (-9)) 1 world_to_refresh)
  = Some (-9)
  /\ refreshGestureMask
       (exec (enterGestureMode fts521 (dev_push_fails (-9)) 1)
          world_to_refresh) = 1
  /\ trace (exec (enterGestureMode fts521 (dev_push_fails (-9)) 1)
              world_to_refresh)
     = [(Call_enableInterrupt, 0);
        (Call_setFeatures 3 [0; 0; 0; 0] 4, -9);
        (Call_disableInterrupt, 0)].
Proof. repeat split. Qed.

(** X12. A mask update accepted by [updateGestureMask] reaches the
    firmware at the next [enterGestureMode], whatever [reload] is: once
    interrupts are disabled, the next call made is [setFeatures] with the
    updated mask; its success clears the refresh flag, its failure leaves
    the flag set for a later attempt. *)
Theorem updateGestureMask_then_enterGestureMode
    K dev mask size en reload w w1 :
  OK K <> ERROR_OP_NOT_ALLOW K ->
  0 <= GESTURE_MASK_SIZE K ->
  updateGestureMask K mask size en w = Some (OK K, w1) ->
  ~ dev_result dev (trace w1) Call_disableInterrupt < OK K ->
  exists r w2 later res rd,
    enterGestureMode K dev reload w1 = Some (r, w2)
    /\ trace w2
       = later
         ++ [(Call_setFeatures (FEAT_SEL_GESTURE K) (gesture_mask w1)
                (GESTURE_MASK_SIZE K), res);
             (Call_disableInterrupt, rd)]
         ++ trace w1
    /\ (~ res < OK K -> refreshGestureMask w2 = 0)
    /\ (res < OK K -> refreshGestureMask w2 = 1).
Proof.
  intros Hcodes HK Hupd Hdis.
  assert (Hflag : refreshGestureMask w1 = 1).
  { apply updateGestureMask_outcome in Hupd as [[? _]|[_ ?]];
      [contradiction|assumption]. }
  unfold enterGestureMode, fts_disableInterrupt, invoke, bind, reads, modify,
    ret.
  cbv beta iota zeta.
  destruct (Z.ltb_spec (dev_result dev (trace w1) Call_disableInterrupt)
              (OK K)) as [?|_]; [contradiction|].
  change (refreshGestureMask (set_trace _ w1)) with (refreshGestureMask w1).
  rewrite Hflag, Z.eqb_refl, orb_true_r.
  enter_paths; try lia.
  all: eexists _, _, _, _, _; (split; [reflexivity|]).
  all: world_simpl.
  all: split;
    [ match goal with
      | |- ?a :: ?b :: ?c :: ?d :: trace ?u = _ =>
          exact (eq_refl ([a; b] ++ [c; d] ++ trace u))
      | |- ?a :: ?c :: ?d :: trace ?u = _ =>
          exact (eq_refl ([a] ++ [c; d] ++ trace u))
      end
    | split; intros; first [reflexivity|assumption|lia] ].
Qed.

Lemma updateGestureMask_then_enterGestureMode_witness :
  exists r w2 later res rd,
    enterGestureMode fts521 (dev_const 0 []) 0
      (exec (updateGestureMask fts521 (Some [0x03]) 1 1) (boot fts521))
    = Some (r, w2)
    /\ trace w2
       = later
         ++ [(Call_setFeatures (FEAT_SEL_GESTURE fts521)
                (gesture_mask
                   (exec (updateGestureMask fts521 (Some [0x03]) 1 1)
                      (boot fts521)))
                (GESTURE_MASK_SIZE fts521), res);
             (Call_disableInterrupt, rd)]
         ++ trace (exec (updateGestureMask fts521 (Some [0x03]) 1 1)
                     (boot fts521))
    /\ (~ res < OK fts521 -> refreshGestureMask w2 = 0)
    /\ (res < OK fts521 -> refreshGestureMask w2 = 1).
Proof.
  apply (updateGestureMask_then_enterGestureMode fts521 (dev_const 0 [])
           (Some [0x03]) 1 1 0 (boot fts521)).
  - cbn. lia.
  - cbn. lia.
  - reflexivity.
  - cbn. lia.
Defined.

(** The mask armed through [updateGestureMask] as [enterGestureMode] sends
    it. *)
Example updateGestureMask_then_enterGestureMode_run :
  trace (exec (enterGestureMode fts521 (dev_const 0 []) 0)
           (exec (updateGestureMask fts521 (Some [0x03]) 1 1) (boot fts521)))
  = [(Call_enableInterrupt, 0);
     (Call_setScanMode 1 0, 0);
     (Call_setFeatures 3 [3; 0; 0; 0] 4, 0);
     (Call_disableInterrupt, 0)].
Proof. reflexivity. Qed.

(** ** readGestureCoords, once more *)

Lemma readGestureCoords_mismatch_run K dev w event :
  6 <= Z.of_nat (length event) ->
  index event 0 <> Some (EVT_ID_USER_REPORT K)
  \/ index event 1 <> Some (EVT_TYPE_USER_GESTURE K) ->
  readGestureCoords K dev (Some event) w = Some (ERROR_OP_NOT_ALLOW K, w).
Proof.
  intros Hlen Htag.
  destruct (index_in_range event 0) as [e0 He0]; [lia|].
  destruct (index_in_range event 1) as [e1 He1]; [lia|].
  unfold readGestureCoords, deref, bind, lift, ret.
  rewrite He0; cbv beta iota.
  destruct (Z.eqb_spec e0 (EVT_ID_USER_REPORT K)) as [->|]; [|reflexivity].
  rewrite He1; cbv beta iota.
  destruct (Z.eqb_spec e1 (EVT_TYPE_USER_GESTURE K)) as [->|];
    [|reflexivity].
  destruct Htag as [Htag|Htag]; contradiction.
Qed.

(** An event of six bytes has the tags or not. *)
Lemma event_tags_dec K event :
  6 <= Z.of_nat (length event) ->
  (index event 0 = Some (EVT_ID_USER_REPORT K)
   /\ index event 1 = Some (EVT_TYPE_USER_GESTURE K))
  \/ (index event 0 <> Some (EVT_ID_USER_REPORT K)
      \/ index event 1 <> Some (EVT_TYPE_USER_GESTURE K)).
Proof.
  intros Hlen.
  destruct (index_in_range event 0) as [e0 He0]; [lia|].
  destruct (index_in_range event 1) as [e1 He1]; [lia|].
  rewrite He0, He1.
  destruct (Z.eq_dec e0 (EVT_ID_USER_REPORT K)) as [->|];
    [|right; left; congruence].
  destruct (Z.eq_dec e1 (EVT_TYPE_USER_GESTURE K)) as [->|];
    [|right; right; congruence].
  left. split; reflexivity.
Qed.

Lemma clamp_min K e5 :
  (if e5 >? GESTURE_MAX_COORDS_PAIRS_REPORT K
   then GESTURE_MAX_COORDS_PAIRS_REPORT K else e5)
  = Z.min e5 (GESTURE_MAX_COORDS_PAIRS_REPORT K).
Proof.
  destruct (Z.gtb_spec e5 (GESTURE_MAX_COORDS_PAIRS_REPORT K)); lia.
Qed.

(** X13. When the bus read fails on an event with the expected tags,
    [readGestureCoords] returns the code of the read, sets the reported
    count to [ERROR_OP_NOT_ALLOW] and leaves both coordinate arrays, the mask
    and the refresh flag as they were; the read was asked for four bytes
    per pair of the clamped count. *)
Theorem readGestureCoords_read_failure K dev w event e3 e4 e5 c :
  index event 0 = Some (EVT_ID_USER_REPORT K) ->
  index event 1 = Some (EVT_TYPE_USER_GESTURE K) ->
  index event 3 = Some e3 ->
  index event 4 = Some e4 ->
  index event 5 = Some e5 ->
  c = Call_writeReadU8UX (FTS_CMD_FRAMEBUFFER_R K) (BITS_16 K)
        (Z.lor (Z.shiftl e4 8) e3)
        (Z.min e5 (GESTURE_MAX_COORDS_PAIRS_REPORT K) * 4)
        (DUMMY_FRAMEBUFFER K) ->
  dev_result dev (trace w) c < OK K ->
  exists w',
    readGestureCoords K dev (Some event) w
    = Some (dev_result dev (trace w) c, w')
    /\ gesture_coords_reported w' = ERROR_OP_NOT_ALLOW K
    /\ gesture_coordinates_x w' = gesture_coordinates_x w
    /\ gesture_coordinates_y w' = gesture_coordinates_y w
    /\ gesture_mask w' = gesture_mask w
    /\ refreshGestureMask w' = refreshGestureMask w
    /\ trace w' = (c, dev_result dev (trace w) c) :: trace w.
Proof.
  intros H0 H1 H3 H4 H5 -> Hres.
  rewrite (readGestureCoords_gesture_run K dev w event e3 e4 e5
             H0 H1 H3 H4 H5 (Z.min e5 (GESTURE_MAX_COORDS_PAIRS_REPORT K)) _
             (eq_sym (clamp_min K e5)) eq_refl).
  replace (Z.min e5 (GESTURE_MAX_COORDS_PAIRS_REPORT K) * 2 * 2)
    with (Z.min e5 (GESTURE_MAX_COORDS_PAIRS_REPORT K) * 4) by lia.
  match goal with
  | |- context [if ?r <? OK K then _ else _] =>
      destruct (Z.ltb_spec r (OK K)); [|lia]
  end.
  eexists. split; [reflexivity|]. repeat split.
Qed.

Lemma readGestureCoords_read_failure_witness :
  exists w',
    readGestureCoords fts521 (dev_const (-3) []) (Some (gesture_event 2))
      world_after_gesture
    = Some (-3, w')
    /\ gesture_coords_reported w' = ERROR_OP_NOT_ALLOW fts521
    /\ gesture_coordinates_x w' = gesture_coordinates_x world_after_gesture
    /\ gesture_coordinates_y w' = gesture_coordinates_y world_after_gesture
    /\ gesture_mask w' = gesture_mask world_after_gesture
    /\ refreshGestureMask w' = refreshGestureMask world_after_gesture
    /\ trace w'
       = (Call_writeReadU8UX 0xA6 2 0x2010 8 1, -3)
         :: trace world_after_gesture.
Proof.
  apply (readGestureCoords_read_failure fts521 (dev_const (-3) [])
           world_after_gesture (gesture_event 2) 0x10 0x20 2
           (Call_writeReadU8UX 0xA6 2 0x2010 8 1)).
  - reflexivity.
  - reflexivity.
  - reflexivity.
  - reflexivity.
  - reflexivity.
  - reflexivity.
  - cbn. lia.
Defined.

Lemma keeps_for_loop_range {B} (f : world -> B) body n :
  forall from,
    (forall i, from <= i < from + Z.of_nat n -> keeps f (body i)) ->
    keeps f (for_loop from n body).
Proof.
  induction n as [|n IH]; intros from Hbody; cbn [for_loop].
  - apply keeps_ret.
  - apply keeps_bind; [apply Hbody; lia|]. intros _.
    apply IH. intros i Hi. apply Hbody. lia.
Qed.

Lemma store_gesture_coordinates_x_keeps_other i v j :
  i <> j ->
  keeps (fun w => index (gesture_coordinates_x w) j)
    (store_gesture_coordinates_x i v).
Proof.
  intros Hne w a w' H.
  unfold store_gesture_coordinates_x, bind, reads, lift, modify, store in H.
  destruct (Z.leb_spec 0 i); cbn [andb] in H; [|discriminate].
  destruct (i <? Z.of_nat (length (gesture_coordinates_x w)));
    inversion H; subst. cbn. unfold index.
  destruct (Z.ltb_spec j 0); [reflexivity|].
  apply list_lookup_insert_ne. lia.
Qed.

Lemma store_gesture_coordinates_y_keeps_other i v j :
  i <> j ->
  keeps (fun w => index (gesture_coordinates_y w) j)
    (store_gesture_coordinates_y i v).
Proof.
  intros Hne w a w' H.
  unfold store_gesture_coordinates_y, bind, reads, lift, modify, store in H.
  destruct (Z.leb_spec 0 i); cbn [andb] in H; [|discriminate].
  destruct (i <? Z.of_nat (length (gesture_coordinates_y w)));
    inversion H; subst. cbn. unfold index.
  destruct (Z.ltb_spec j 0); [reflexivity|].
  apply list_lookup_insert_ne. lia.
Qed.

Lemma decode_pair_keeps_other val n i j :
  i <> j ->
  keeps (fun w => index (gesture_coordinates_x w) j) (decode_pair val n i)
  /\ keeps (fun w => index (gesture_coordinates_y w) j)
       (decode_pair val n i).
Proof.
  intros Hne. unfold decode_pair. split.
  - apply keeps_bind; [keeps_all|intros xlo].
    apply keeps_bind; [keeps_all|intros xhi].
    apply keeps_bind;
      [apply store_gesture_coordinates_x_keeps_other; exact Hne|intros _].
    keeps_all.
  - apply keeps_bind; [keeps_all|intros xlo].
    apply keeps_bind; [keeps_all|intros xhi].
    apply keeps_bind; [keeps_all|intros _].
    apply keeps_bind; [keeps_all|intros yhi].
    apply keeps_bind; [keeps_all|intros ylo].
    apply store_gesture_coordinates_y_keeps_other; exact Hne.
Qed.

(** X14. [readGestureCoords] writes the first [count] entries of the two
    arrays and no other: whatever the run, the entries from index
    [min(event[5], GESTURE_MAX_COORDS_PAIRS_REPORT)] on hold afterwards
    the coordinates they held before (those of an earlier, longer
    gesture). *)
Theorem readGestureCoords_keeps_tail K dev w event e5 r w' :
  index event 5 = Some e5 ->
  readGestureCoords K dev (Some event) w = Some (r, w') ->
  forall j,
    Z.min e5 (GESTURE_MAX_COORDS_PAIRS_REPORT K) <= j ->
    index (gesture_coordinates_x w') j = index (gesture_coordinates_x w) j
    /\ index (gesture_coordinates_y w') j
       = index (gesture_coordinates_y w) j.
Proof.
  intros H5 Hrun j Hj.
  assert (Hlen : 6 <= Z.of_nat (length event)).
  { apply index_Some in H5 as [_ H5]. apply lookup_lt_Some in H5. lia. }
  destruct (event_tags_dec K event Hlen) as [[H0 H1]|Htag].
  - destruct (index_in_range event 3) as [e3 H3]; [lia|].
    destruct (index_in_range event 4) as [e4 H4]; [lia|].
    rewrite (readGestureCoords_gesture_run K dev w event e3 e4 e5
               H0 H1 H3 H4 H5 (Z.min e5 (GESTURE_MAX_COORDS_PAIRS_REPORT K))
               _ (eq_sym (clamp_min K e5)) eq_refl) in Hrun.
    match type of Hrun with
    | context [if ?c <? OK K then _ else _] => destruct (c <? OK K)
    end.
    + inversion Hrun; subst. split; reflexivity.
    + apply bind_inv in Hrun as ([] & v & Hloop & Hret).
      inversion Hret; subst; clear Hret.
      unfold for_lt in Hloop.
      split.
      * refine (keeps_for_loop_range
                  (fun u => index (gesture_coordinates_x u) j)
                  _ _ 0 _ _ _ _ Hloop).
        intros i Hi. apply decode_pair_keeps_other. lia.
      * refine (keeps_for_loop_range
                  (fun u => index (gesture_coordinates_y u) j)
                  _ _ 0 _ _ _ _ Hloop).
        intros i Hi. apply decode_pair_keeps_other. lia.
  - rewrite (readGestureCoords_mismatch_run K dev w event Hlen Htag) in Hrun.
    inversion Hrun; subst. split; reflexivity.
Qed.

Lemma readGestureCoords_keeps_tail_witness :
  Z.min 1 (GESTURE_MAX_COORDS_PAIRS_REPORT fts521) <= 1
  /\ index (gesture_coordinates_x
              (exec (readGestureCoords fts521
                       (dev_const 0 [0xFF; 0x0F; 0; 0])
                       (Some (gesture_event 1))) world_after_gesture)) 1
     = index (gesture_coordinates_x world_after_gesture) 1
  /\ index (gesture_coordinates_y
              (exec (readGestureCoords fts521
                       (dev_const 0 [0xFF; 0x0F; 0; 0])
                       (Some (gesture_event 1))) world_after_gesture)) 1
     = index (gesture_coordinates_y world_after_gesture) 1.
Proof.
  split; [cbn; lia|].
  apply (readGestureCoords_keeps_tail fts521 (dev_const 0 [0xFF; 0x0F; 0; 0])
           world_after_gesture (gesture_event 1) 1 0).
  - reflexivity.
  - reflexivity.
  - cbn. lia.
Defined.

(** After a gesture of two pairs, a gesture of one pair overwrites entry 0
    and leaves entry 1 of the earlier gesture in place. *)
Example readGestureCoords_shorter_gesture_run :
  firstn 2 (gesture_coordinates_x
              (exec (readGestureCoords fts521 (dev_const 0 [0xFF; 0x0F; 0; 0])
                       (Some (gesture_event 1))) world_after_gesture))
  = [0xFFF; 0x256]
  /\ gesture_coords_reported
       (exec (readGestureCoords fts521 (dev_const 0 [0xFF; 0x0F; 0; 0])
                (Some (gesture_event 1))) world_after_gesture) = 1.
Proof. split; reflexivity. Qed.

Lemma unpack12_range lo hi : 0 <= unpack12 lo hi < 2 ^ 12.
Proof.
  rewrite unpack12_value.
  assert (0 <= lo mod 2 ^ 8 < 2 ^ 8) by (apply Z.mod_pos_bound; lia).
  assert (0 <= hi mod 2 ^ 4 < 2 ^ 4) by (apply Z.mod_pos_bound; lia).
  lia.
Qed.

(** The offset in the framebuffer: byte 3 of the event is the low byte,
    byte 4 the high byte. *)
Lemma framebuffer_offset e3 e4 :
  is_u8 e3 -> Z.lor (Z.shiftl e4 8) e3 = e3 + 2 ^ 8 * e4.
Proof.
  intros H3.
  assert (Hdisj : Z.land (Z.shiftl e4 8) e3 = 0).
  { apply Z.bits_inj'. intros k Hk. rewrite Z.land_spec, Z.bits_0.
    destruct (Z.lt_ge_cases k 8).
    - rewrite Z.shiftl_spec_low by lia. reflexivity.
    - rewrite (is_u8_testbit_high e3 k H3) by lia. apply andb_false_r. }
  rewrite <- Z.lxor_lor, <- Z.add_nocarry_lxor by exact Hdisj.
  rewrite Z.shiftl_mul_pow2 by lia. lia.
Qed.

(** X15. After a successful read on an event with the expected tags,
    [readGestureCoords] returns [OK], the reported count is the count byte
    clamped to [GESTURE_MAX_COORDS_PAIRS_REPORT], and every decoded X and Y
    coordinate is a 12-bit value, below 4096, whatever bytes the device
    delivered. *)
Theorem readGestureCoords_coordinates_12_bits K dev w event e3 e4 e5 :
  wf K w ->
  index event 0 = Some (EVT_ID_USER_REPORT K) ->
  index event 1 = Some (EVT_TYPE_USER_GESTURE K) ->
  index event 3 = Some e3 ->
  index event 4 = Some e4 ->
  index event 5 = Some e5 ->
  ~ dev_result dev (trace w)
      (Call_writeReadU8UX (FTS_CMD_FRAMEBUFFER_R K) (BITS_16 K)
         (Z.lor (Z.shiftl e4 8) e3)
         (Z.min e5 (GESTURE_MAX_COORDS_PAIRS_REPORT K) * 4)
         (DUMMY_FRAMEBUFFER K))
    < OK K ->
  exists w',
    readGestureCoords K dev (Some event) w = Some (OK K, w')
    /\ gesture_coords_reported w'
       = Z.min e5 (GESTURE_MAX_COORDS_PAIRS_REPORT K)
    /\ forall i,
         0 <= i < Z.min e5 (GESTURE_MAX_COORDS_PAIRS_REPORT K) ->
         exists x y,
           index (gesture_coordinates_x w') i = Some x
           /\ index (gesture_coordinates_y w') i = Some y
           /\ 0 <= x < 2 ^ 12
           /\ 0 <= y < 2 ^ 12.
Proof.
  intros Hwf H0 H1 H3 H4 H5 Hres.
  pose proof (wf_x_length K w Hwf) as Hx.
  pose proof (wf_y_length K w Hwf) as Hy.
  set (n := Z.min e5 (GESTURE_MAX_COORDS_PAIRS_REPORT K)) in *.
  rewrite (readGestureCoords_gesture_run K dev w event e3 e4 e5
             H0 H1 H3 H4 H5 n _ (eq_sym (clamp_min K e5)) eq_refl).
  replace (n * 2 * 2) with (n * 4) by lia.
  set (c := Call_writeReadU8UX _ _ _ _ _) in *.
  destruct (Z.ltb_spec (dev_result dev (trace w) c) (OK K)) as [?|_];
    [contradiction|].
  set (val := resize _ 0 _).
  destruct (decode_loop val n
              (set_trace ((c, dev_result dev (trace w) c) :: trace w)
                 (set_gesture_coords_reported n w)))
    as (v & Hv & Hsame & _ & _ & Hdone).
  { world_simpl. lia. }
  { world_simpl. lia. }
  { unfold val. rewrite length_resize. lia. }
  rewrite (bind_Some _ _ _ _ _ Hv).
  exists v. split; [reflexivity|]. split.
  - rewrite Hsame. reflexivity.
  - intros i Hi.
    destruct (Hdone i) as (xlo & xhi & ylo & yhi & _ & _ & _ & _ & E & F);
      [lia|].
    exists (unpack12 xlo xhi), (unpack12 ylo yhi).
    split; [exact E|]. split; [exact F|].
    split; apply unpack12_range.
Qed.

Lemma readGestureCoords_coordinates_12_bits_witness :
  exists w',
    readGestureCoords fts521 (dev_const 0 [0xFF; 0xFF; 0xFF; 0xFF])
      (Some (gesture_event 1)) (boot fts521)
    = Some (OK fts521, w')
    /\ gesture_coords_reported w'
       = Z.min 1 (GESTURE_MAX_COORDS_PAIRS_REPORT fts521)
    /\ forall i,
         0 <= i < Z.min 1 (GESTURE_MAX_COORDS_PAIRS_REPORT fts521) ->
         exists x y,
           index (gesture_coordinates_x w') i = Some x
           /\ index (gesture_coordinates_y w') i = Some y
           /\ 0 <= x < 2 ^ 12
           /\ 0 <= y < 2 ^ 12.
Proof.
  apply (readGestureCoords_coordinates_12_bits fts521
           (dev_const 0 [0xFF; 0xFF; 0xFF; 0xFF]) (boot fts521)
           (gesture_event 1) 0x10 0x20 1).
  - solve_wf.
  - reflexivity.
  - reflexivity.
  - reflexivity.
  - reflexivity.
  - reflexivity.
  - cbn. lia.
Defined.

(** X16. On every event of six bytes or more, [readGestureCoords] is
    defined from a world whose arrays have their declared sizes: no access
    leaves the event, the local buffer or the coordinate arrays. It leaves
    the mask and the refresh flag alone and calls a collaborator at most
    once: a bus read at the 16-bit offset [event[3] + 256 * event[4]] for
    [4 * min(event[5], GESTURE_MAX_COORDS_PAIRS_REPORT)] bytes, never more
    than the local buffer holds. *)
Theorem readGestureCoords_defined K dev w event :
  wf K w ->
  6 <= Z.of_nat (length event) ->
  Forall is_u8 event ->
  exists r w',
    readGestureCoords K dev (Some event) w = Some (r, w')
    /\ gesture_mask w' = gesture_mask w
    /\ refreshGestureMask w' = refreshGestureMask w
    /\ (trace w' = trace w
        \/ exists e3 e4 e5 res,
            index event 3 = Some e3
            /\ index event 4 = Some e4
            /\ index event 5 = Some e5
            /\ trace w'
               = (Call_writeReadU8UX (FTS_CMD_FRAMEBUFFER_R K) (BITS_16 K)
                    (e3 + 2 ^ 8 * e4)
                    (4 * Z.min e5 (GESTURE_MAX_COORDS_PAIRS_REPORT K))
                    (DUMMY_FRAMEBUFFER K), res) :: trace w
            /\ 0 <= e3 + 2 ^ 8 * e4 < 2 ^ 16
            /\ 0 <= 4 * Z.min e5 (GESTURE_MAX_COORDS_PAIRS_REPORT K)
               <= GESTURE_MAX_COORDS_PAIRS_REPORT K * 4).
Proof.
  intros Hwf Hlen Hu8.
  pose proof (wf_x_length K w Hwf) as Hx.
  pose proof (wf_y_length K w Hwf) as Hy.
  destruct (event_tags_dec K event Hlen) as [[H0 H1]|Htag].
  - destruct (index_in_range event 3) as [e3 H3]; [lia|].
    destruct (index_in_range event 4) as [e4 H4]; [lia|].
    destruct (index_in_range event 5) as [e5 H5]; [lia|].
    assert (Hu : forall i e, index event i = Some e -> is_u8 e).
    { intros i e He. apply index_Some in He as [_ He].
      exact (Forall_lookup_1 _ _ _ _ Hu8 He). }
    pose proof (Hu 3 e3 H3) as Hu3. pose proof (Hu 4 e4 H4) as Hu4.
    pose proof (Hu 5 e5 H5) as Hu5. unfold is_u8 in Hu3, Hu4, Hu5.
    set (n := Z.min e5 (GESTURE_MAX_COORDS_PAIRS_REPORT K)) in *.
    rewrite (readGestureCoords_gesture_run K dev w event e3 e4 e5
               H0 H1 H3 H4 H5 n _ (eq_sym (clamp_min K e5)) eq_refl).
    replace (n * 2 * 2) with (4 * n) by lia.
    rewrite (framebuffer_offset e3 e4 Hu3).
    set (c := Call_writeReadU8UX _ _ _ _ _) in *.
    destruct (dev_result dev (trace w) c <? OK K).
    + eexists _, _. split; [reflexivity|]. world_simpl.
      split; [reflexivity|]. split; [reflexivity|].
      right. exists e3, e4, e5, (dev_result dev (trace w) c).
      repeat split; try assumption; lia.
    + set (val := resize _ 0 _).
      destruct (decode_loop val n
                  (set_trace ((c, dev_result dev (trace w) c) :: trace w)
                     (set_gesture_coords_reported n w)))
        as (v & Hv & Hsame & _).
      { world_simpl. lia. }
      { world_simpl. lia. }
      { unfold val. rewrite length_resize. lia. }
      rewrite (bind_Some _ _ _ _ _ Hv).
      eexists _, _. split; [reflexivity|].
      rewrite Hsame. world_simpl.
      split; [reflexivity|]. split; [reflexivity|].
      right. exists e3, e4, e5, (dev_result dev (trace w) c).
      repeat split; try assumption; lia.
  - rewrite (readGestureCoords_mismatch_run K dev w event Hlen Htag).
    eexists _, _. split; [reflexivity|]. auto.
Qed.

Lemma readGestureCoords_defined_witness :
  exists r w',
    readGestureCoords fts521 (dev_const 0 []) (Some (gesture_event 255))
      (boot fts521)
    = Some (r, w')
    /\ gesture_mask w' = gesture_mask (boot fts521)
    /\ refreshGestureMask w' = refreshGestureMask (boot fts521)
    /\ (trace w' = trace (boot fts521)
        \/ exists e3 e4 e5 res,
            index (gesture_event 255) 3 = Some e3
            /\ index (gesture_event 255) 4 = Some e4
            /\ index (gesture_event 255) 5 = Some e5
            /\ trace w'
               = (Call_writeReadU8UX (FTS_CMD_FRAMEBUFFER_R fts521)
                    (BITS_16 fts521) (e3 + 2 ^ 8 * e4)
                    (4 * Z.min e5 (GESTURE_MAX_COORDS_PAIRS_REPORT fts521))
                    (DUMMY_FRAMEBUFFER fts521), res) :: trace (boot fts521)
            /\ 0 <= e3 + 2 ^ 8 * e4 < 2 ^ 16
            /\ 0 <= 4 * Z.min e5 (GESTURE_MAX_COORDS_PAIRS_REPORT fts521)
               <= GESTURE_MAX_COORDS_PAIRS_REPORT fts521 * 4).
Proof.
  apply (readGestureCoords_defined fts521 (dev_const 0 [])
           (boot fts521) (gesture_event 255)).
  - solve_wf.
  - cbn. lia.
  - repeat (constructor; [unfold is_u8; lia|]). constructor.
Defined.

(** ** Invariants of the globals *)

Section Preserves.

Context (P : world -> Prop).

Lemma preserves_ret {A} (a : A) : preserves P (ret a).
Proof. intros w a' w' H HP. inversion H; subst. exact HP. Qed.

Lemma preserves_bind {A C} (m : M A) (k : A -> M C) :
  preserves P m -> (forall a, preserves P (k a)) -> preserves P (bind m k).
Proof.
  intros Hm Hk w c w' H HP.
  apply bind_inv in H as (a & v & H1 & H2).
  exact (Hk a v c w' H2 (Hm w a v H1 HP)).
Qed.

Lemma preserves_reads {A} (g : world -> A) : preserves P (reads g).
Proof. intros w a w' H HP. inversion H; subst. exact HP. Qed.

Lemma preserves_lift {A} (o : option A) : preserves P (lift o).
Proof.
  intros w a w' H HP. unfold lift in H. destruct o; inversion H; subst.
  exact HP.
Qed.

Lemma preserves_undefined {A} : preserves P (@undefined A).
Proof. intros w a w' H. discriminate. Qed.

Lemma preserves_modify (g : world -> world) :
  (forall w, P w -> P (g w)) -> preserves P (modify g).
Proof. intros Hg w a w' H HP. inversion H; subst. apply Hg, HP. Qed.

Lemma preserves_for_loop body n :
  (forall i, preserves P (body i)) ->
  forall from, preserves P (for_loop from n body).
Proof.
  intros Hbody. induction n as [|n IH]; intros from; cbn [for_loop].
  - apply preserves_ret.
  - apply preserves_bind; [apply Hbody|]. intros _. apply IH.
Qed.

Lemma preserves_for_lt bound body :
  (forall i, preserves P (body i)) -> preserves P (for_lt bound body).
Proof. intros Hbody. apply preserves_for_loop. exact Hbody. Qed.

Lemma preserves_invoke dev c :
  (forall t w, P w -> P (set_trace t w)) -> preserves P (invoke dev c).
Proof. intros Hf w a w' H HP. inversion H; subst. apply Hf, HP. Qed.

Lemma preserves_fts_writeReadU8UX
    dev cmd addrSize address capacity len dummy :
  (forall t w, P w -> P (set_trace t w)) ->
  preserves P (fts_writeReadU8UX dev cmd addrSize address capacity len dummy).
Proof. intros Hf w a w' H HP. inversion H; subst. apply Hf, HP. Qed.

End Preserves.

Lemma wf_set_trace K t w : wf K w -> wf K (set_trace t w).
Proof. intros [? ? ? ?]. split; assumption. Qed.

Lemma wf_set_refreshGestureMask K f w :
  wf K w -> wf K (set_refreshGestureMask f w).
Proof. intros [? ? ? ?]. split; assumption. Qed.

Lemma wf_set_gesture_coords_reported K n w :
  wf K w -> wf K (set_gesture_coords_reported n w).
Proof. intros [? ? ? ?]. split; assumption. Qed.

Lemma store_gesture_mask_wf K i v : preserves (wf K) (store_gesture_mask i v).
Proof.
  intros w a w' H [H1 H2 H3 H4].
  unfold store_gesture_mask, bind, reads, lift, modify, store in H.
  destruct ((0 <=? i) && (i <? Z.of_nat (length (gesture_mask w))));
    inversion H; subst.
  split; cbn; try assumption.
  - rewrite length_insert. exact H1.
  - apply Forall_insert; [exact H2|].
    unfold is_u8, to_u8. apply Z.mod_pos_bound. lia.
Qed.

Lemma store_gesture_coordinates_x_wf K i v :
  preserves (wf K) (store_gesture_coordinates_x i v).
Proof.
  intros w a w' H [H1 H2 H3 H4].
  unfold store_gesture_coordinates_x, bind, reads, lift, modify, store in H.
  destruct ((0 <=? i) && (i <? Z.of_nat (length (gesture_coordinates_x w))));
    inversion H; subst.
  split; cbn; try assumption. rewrite length_insert. exact H3.
Qed.

Lemma store_gesture_coordinates_y_wf K i v :
  preserves (wf K) (store_gesture_coordinates_y i v).
Proof.
  intros w a w' H [H1 H2 H3 H4].
  unfold store_gesture_coordinates_y, bind, reads, lift, modify, store in H.
  destruct ((0 <=? i) && (i <? Z.of_nat (length (gesture_coordinates_y w))));
    inversion H; subst.
  split; cbn; try assumption. rewrite length_insert. exact H4.
Qed.

(** Decomposes a goal [preserves (wf K) m] along the structure of [m]. *)
Ltac wf_step :=
  match goal with
  | |- preserves _ (ret _) => apply preserves_ret
  | |- preserves _ (bind _ _) => apply preserves_bind; [|intros ?]
  | |- preserves _ (reads _) => apply preserves_reads
  | |- preserves _ (lift _) => apply preserves_lift
  | |- preserves _ undefined => apply preserves_undefined
  | |- preserves _ (store_gesture_mask _ _) => apply store_gesture_mask_wf
  | |- preserves _ (store_gesture_coordinates_x _ _) =>
      apply store_gesture_coordinates_x_wf
  | |- preserves _ (store_gesture_coordinates_y _ _) =>
      apply store_gesture_coordinates_y_wf
  | |- preserves _ (modify (set_refreshGestureMask _)) =>
      apply preserves_modify; intros; apply wf_set_refreshGestureMask;
      assumption
  | |- preserves _ (modify (set_gesture_coords_reported _)) =>
      apply preserves_modify; intros; apply wf_set_gesture_coords_reported;
      assumption
  | |- preserves _ (for_lt _ _) => apply preserves_for_lt; intros ?
  | |- preserves _ (invoke _ _) =>
      apply preserves_invoke; intros; apply wf_set_trace; assumption
  | |- preserves _ (fts_writeReadU8UX _ _ _ _ _ _ _) =>
      apply preserves_fts_writeReadU8UX; intros; apply wf_set_trace;
      assumption
  | |- preserves _ (if negb (is_null _) then _ else _) =>
      progress cbn [is_null negb]
  | |- preserves _ (if ?c then _ else _) => destruct c
  | |- preserves _ (match ?x with _ => _ end) => destruct x
  | |- preserves _ _ =>
      progress unfold load_gesture_mask, deref,
        enable_byte, disable_byte, decode_pair, setFeatures, setScanMode,
        fts_disableInterrupt, fts_enableInterrupt, enterGestureMode_END,
        enterGestureMode_scan
  end.

Lemma run_preserves_wf K dev op : preserves (wf K) (run K dev op).
Proof.
  destruct op as [mask size en|mask size|mask size|reload| |event|];
    cbn [run].
  - unfold updateGestureMask. repeat wf_step.
  - unfold enableGesture. repeat wf_step.
  - unfold disableGesture. repeat wf_step.
  - unfold enterGestureMode, enableGesture. repeat wf_step.
  - intros w r w' H Hwf.
    rewrite (isAnyGestureActive_keeps (fun u => u) K w r w' H). exact Hwf.
  - unfold readGestureCoords. repeat wf_step.
  - unfold getGestureCoords. repeat wf_step.
Qed.

Lemma decode_loop_keeps_count val n :
  keeps gesture_coords_reported (for_lt n (decode_pair val n)).
Proof. keeps_all. Qed.

(** The reported count after [readGestureCoords]: the one before, the
    sentinel, or the clamped count byte. *)
Lemma readGestureCoords_count K dev event w r w' :
  readGestureCoords K dev event w = Some (r, w') ->
  gesture_coords_reported w' = gesture_coords_reported w
  \/ gesture_coords_reported w' = ERROR_OP_NOT_ALLOW K
  \/ exists bs e5,
      event = Some bs
      /\ index bs 5 = Some e5
      /\ gesture_coords_reported w'
         = Z.min e5 (GESTURE_MAX_COORDS_PAIRS_REPORT K).
Proof.
  intros Hrun. destruct event as [bs|]; [|discriminate].
  pose proof Hrun as Hcopy.
  unfold readGestureCoords, deref, bind, lift, ret in Hcopy.
  destruct (index bs 0) as [e0|] eqn:E0; [|discriminate].
  cbv beta iota in Hcopy.
  destruct (Z.eqb_spec e0 (EVT_ID_USER_REPORT K)) as [->|];
    [|inversion Hcopy; auto].
  destruct (index bs 1) as [e1|] eqn:E1; [|discriminate].
  cbv beta iota in Hcopy.
  destruct (Z.eqb_spec e1 (EVT_TYPE_USER_GESTURE K)) as [->|];
    [|inversion Hcopy; auto].
  destruct (index bs 4) as [e4|] eqn:E4; [|discriminate].
  cbv beta iota in Hcopy.
  destruct (index bs 3) as [e3|] eqn:E3; [|discriminate].
  cbv beta iota in Hcopy.
  destruct (index bs 5) as [e5|] eqn:E5; [|discriminate].
  clear Hcopy.
  rewrite (readGestureCoords_gesture_run K dev w bs e3 e4 e5
             E0 E1 E3 E4 E5 (Z.min e5 (GESTURE_MAX_COORDS_PAIRS_REPORT K))
             _ (eq_sym (clamp_min K e5)) eq_refl) in Hrun.
  match type of Hrun with
  | context [if ?c <? OK K then _ else _] => destruct (c <? OK K)
  end.
  - inversion Hrun; subst. right. left. reflexivity.
  - apply bind_inv in Hrun as ([] & v & Hloop & Hret).
    inversion Hret; subst; clear Hret.
    right. right. exists bs, e5. split; [reflexivity|].
    split; [exact E5|].
    rewrite (decode_loop_keeps_count _ _ _ _ _ Hloop). reflexivity.
Qed.

Lemma run_keeps_count K dev op :
  (forall event, op <> Op_readGestureCoords event) ->
  keeps gesture_coords_reported (run K dev op).
Proof.
  intros Hop.
  destruct op as [mask size en|mask size|mask size|reload| |event|];
    cbn [run].
  - unfold updateGestureMask. keeps_all.
  - unfold enableGesture. keeps_all.
  - unfold disableGesture. keeps_all.
  - unfold enterGestureMode, enableGesture. keeps_all.
  - apply isAnyGestureActive_keeps.
  - exfalso. exact (Hop event eq_refl).
  - unfold getGestureCoords. keeps_all.
Qed.

(** X17. Every entry point keeps the globals in shape: from a world where
    the arrays have their declared sizes, the mask holds bytes and the
    reported count is the sentinel or between 0 and
    [GESTURE_MAX_COORDS_PAIRS_REPORT], it returns to such a world, the event
    handed to [readGestureCoords] being made of bytes; and the count
    [getGestureCoords] returns is then the sentinel or at most the size of
    the arrays it hands out. *)
Theorem run_keeps_globals_in_shape K dev op w r w' :
  wf K w ->
  count_ok K w ->
  (forall event, op = Op_readGestureCoords (Some event) ->
                 Forall is_u8 event) ->
  run K dev op w = Some (r, w') ->
  wf K w'
  /\ count_ok K w'
  /\ (op = Op_getGestureCoords ->
      r = ERROR_OP_NOT_ALLOW K
      \/ 0 <= r <= Z.of_nat (length (gesture_coordinates_x w'))).
Proof.
  intros Hwf Hcount Hevent Hrun.
  pose proof (run_preserves_wf K dev op w r w' Hrun Hwf) as Hwf'.
  split; [exact Hwf'|].
  assert (Hcount' : count_ok K w').
  { destruct op as [mask size en|mask size|mask size|reload| |event|].
    6: { cbn [run] in Hrun.
         destruct (readGestureCoords_count K dev event w r w' Hrun)
           as [Hsame|[Herr|(bs & e5 & -> & H5 & Hmin)]].
         - unfold count_ok. rewrite Hsame. exact Hcount.
         - left. exact Herr.
         - right. rewrite Hmin.
           pose proof (Hevent bs eq_refl) as Hu8.
           apply index_Some in H5 as [_ H5].
           pose proof (Forall_lookup_1 _ _ _ _ Hu8 H5) as Hu5.
           unfold is_u8 in Hu5.
           pose proof (wf_x_length K w Hwf). lia. }
    all: match type of Hrun with
         | run ?K0 ?d ?o ?u = Some (?r0, ?u') =>
             assert (Hne : forall event, o <> Op_readGestureCoords event)
               by (intros; discriminate);
             pose proof (run_keeps_count K0 d o Hne u r0 u' Hrun) as Hk
         end;
      unfold count_ok; rewrite Hk; exact Hcount. }
  split; [exact Hcount'|].
  intros ->. cbn [run] in Hrun. inversion Hrun; subst.
  rewrite (wf_x_length K w' Hwf'). exact Hcount.
Qed.

Lemma run_keeps_globals_in_shape_witness :
  wf fts521
    (exec (run fts521 (dev_const 0 payload_two_pairs)
             (Op_readGestureCoords (Some (gesture_event 2)))) (boot fts521))
  /\ count_ok fts521
       (exec (run fts521 (dev_const 0 payload_two_pairs)
                (Op_readGestureCoords (Some (gesture_event 2))))
          (boot fts521))
  /\ (Op_readGestureCoords (Some (gesture_event 2)) = Op_getGestureCoords ->
      0 = ERROR_OP_NOT_ALLOW fts521
      \/ 0 <= 0
         <= Z.of_nat
              (length
                 (gesture_coordinates_x
                    (exec (run fts521 (dev_const 0 payload_two_pairs)
                             (Op_readGestureCoords (Some (gesture_event 2))))
                       (boot fts521))))).
Proof.
  apply (run_keeps_globals_in_shape fts521 (dev_const 0 payload_two_pairs)
           (Op_readGestureCoords (Some (gesture_event 2))) (boot fts521) 0).
  - solve_wf.
  - left. reflexivity.
  - intros event Hev. inversion Hev; subst.
    repeat (constructor; [unfold is_u8; lia|]). constructor.
  - reflexivity.
Defined.

(** ** The mask and isAnyGestureActive *)

Lemma enable_byte_nonzero g d :
  is_u8 d -> d <> 0 -> to_u8 (Z.lor g d) <> 0.
Proof.
  intros Hd Hne Hzero. apply Hne.
  apply Z.bits_inj'. intros k Hk. rewrite Z.bits_0.
  destruct (Z.lt_ge_cases k 8).
  - assert (Hbit : Z.testbit (to_u8 (Z.lor g d)) k = false)
      by (rewrite Hzero; apply Z.bits_0).
    rewrite to_u8_testbit, Z.lor_spec in Hbit by lia.
    apply orb_false_iff in Hbit as [_ Hbit]. exact Hbit.
  - apply is_u8_testbit_high; assumption.
Qed.

(** X18. After [updateGestureMask] has enabled an argument with a non-zero
    byte among its first [size] bytes, [isAnyGestureActive] returns
    [FEAT_ENABLE]. *)
Theorem updateGestureMask_enable_makes_active K w delta size (i : nat) d :
  wf K w ->
  1 <= GESTURE_MASK_SIZE K ->
  size <= GESTURE_MASK_SIZE K ->
  size <= Z.of_nat (length delta) ->
  Z.of_nat i < size ->
  delta !! i = Some d ->
  is_u8 d ->
  d <> 0 ->
  exists w1,
    updateGestureMask K (Some delta) size (FEAT_ENABLE K) w = Some (OK K, w1)
    /\ isAnyGestureActive K w1 = Some (FEAT_ENABLE K, w1).
Proof.
  intros Hwf HK Hsize Hdelta Hi Hd Hu8 Hne.
  pose proof (wf_mask_length K w Hwf) as Hlen.
  destruct (updateGestureMask_enable_run K w delta size)
    as (v & Hv & Hrun); try assumption.
  exists (set_refreshGestureMask 1 v). split; [exact Hrun|].
  assert (Hwf1 : wf K (set_refreshGestureMask 1 v)).
  { exact (run_preserves_wf K (dev_const 0 [])
             (Op_updateGestureMask (Some delta) size (FEAT_ENABLE K))
             w (OK K) _ Hrun Hwf). }
  apply (isAnyGestureActive_cases K _ Hwf1 HK).
  destruct (lookup_lt_is_Some_2 (gesture_mask w) i) as [g Hg]; [lia|].
  destruct Hv as (_ & _ & Hlow & _).
  apply Exists_exists. exists (to_u8 (Z.lor g d)). split.
  - apply list_elem_of_lookup. exists i. cbn.
    apply (Hlow i g d); [lia|assumption..].
  - apply enable_byte_nonzero; assumption.
Qed.

Lemma updateGestureMask_enable_makes_active_witness :
  exists w1,
    updateGestureMask fts521 (Some [0x00; 0x00; 0x40]) 3 (FEAT_ENABLE fts521)
      (boot fts521)
    = Some (OK fts521, w1)
    /\ isAnyGestureActive fts521 w1 = Some (FEAT_ENABLE fts521, w1).
Proof.
  apply (updateGestureMask_enable_makes_active fts521 (boot fts521)
           [0x00; 0x00; 0x40] 3 2 0x40).
  - solve_wf.
  - cbn. lia.
  - cbn. lia.
  - cbn. lia.
  - lia.
  - reflexivity.
  - unfold is_u8. lia.
  - lia.
Defined.

(** X19. After [updateGestureMask] has disabled, over the whole mask, an
    argument that has every armed bit set (the mask itself, say),
    [isAnyGestureActive] returns [FEAT_DISABLE]. *)
Theorem updateGestureMask_disable_all_makes_inactive K w delta :
  wf K w ->
  1 <= GESTURE_MASK_SIZE K ->
  FEAT_DISABLE K <> FEAT_ENABLE K ->
  GESTURE_MASK_SIZE K <= Z.of_nat (length delta) ->
  (forall (i : nat) g d,
      gesture_mask w !! i = Some g -> delta !! i = Some d ->
      Z.land g (Z.lnot d) = 0) ->
  exists w1,
    updateGestureMask K (Some delta) (GESTURE_MASK_SIZE K) (FEAT_DISABLE K) w
    = Some (OK K, w1)
    /\ isAnyGestureActive K w1 = Some (FEAT_DISABLE K, w1).
Proof.
  intros Hwf HK Hsel Hdelta Hcover.
  pose proof (wf_mask_length K w Hwf) as Hlen.
  destruct (updateGestureMask_disable_run K w delta (GESTURE_MASK_SIZE K))
    as (v & Hv & Hrun); try assumption; [lia|].
  exists (set_refreshGestureMask 1 v). split; [exact Hrun|].
  assert (Hwf1 : wf K (set_refreshGestureMask 1 v)).
  { exact (run_preserves_wf K (dev_const 0 [])
             (Op_updateGestureMask (Some delta) (GESTURE_MASK_SIZE K)
                (FEAT_DISABLE K))
             w (OK K) _ Hrun Hwf). }
  apply (isAnyGestureActive_cases K _ Hwf1 HK).
  destruct Hv as (_ & Hlenv & Hlow & _).
  apply Forall_lookup_2. intros j x Hx. cbn in Hx.
  assert (Hj : (j < length (gesture_mask w))%nat).
  { apply lookup_lt_Some in Hx. lia. }
  destruct (lookup_lt_is_Some_2 (gesture_mask w) j) as [g Hg]; [lia|].
  destruct (lookup_lt_is_Some_2 delta j) as [d Hd]; [lia|].
  rewrite (Hlow j g d) in Hx by (lia || assumption).
  inversion Hx; subst.
  rewrite disable_byte_value.
  - exact (Hcover j g d Hg Hd).
  - exact (Forall_lookup_1 _ _ _ _ (wf_mask_u8 K w Hwf) Hg).
Qed.

Lemma updateGestureMask_disable_all_makes_inactive_witness :
  exists w1,
    updateGestureMask fts521 (Some [0x00; 0x05; 0x00; 0x00])
      (GESTURE_MASK_SIZE fts521) (FEAT_DISABLE fts521) world_armed
    = Some (OK fts521, w1)
    /\ isAnyGestureActive fts521 w1 = Some (FEAT_DISABLE fts521, w1).
Proof.
  apply (updateGestureMask_disable_all_makes_inactive fts521 world_armed
           [0x00; 0x05; 0x00; 0x00]).
  - solve_wf.
  - cbn. lia.
  - cbn. lia.
  - cbn. lia.
  - intros i g d Hg Hd.
    destruct i as [|[|[|[|i]]]]; cbn in Hg, Hd;
      inversion Hg; inversion Hd; subst; reflexivity.
Defined.
